(** * HL7-API: the analyzer middleware (main.py) and the HL7 server (server.py)

    A shallow embedding of the two services and the properties of their
    token gate, their pipe-delimited codec and their message store.

    Conventions.
    - A Python [str] is a Rocq [string]; its characters are the 8-bit code
      points, which covers the ASCII wire formats of both services.
    - [Optional[str]] is [option string]; [None] is the absent header.
    - The clock is read by the caller and handed to the functions: an
      instant is a number of microseconds since the epoch, the resolution
      of [datetime.now].
    - An exception is a value: a handler returns either its result or the
      exception it raised, and a [try ... except] is a [match].
    - main.py's handlers run in a writer monad that records every call
      into a collaborator (PyJWT, the sample directory, the test
      directory, the upload parser), so that "nothing was touched before
      the gate answered" is a statement about the recorded trace. *)

From Stdlib Require Import ZArith Lia Ascii String DecimalString.
From stdpp Require Import base option list gmap strings.

Set Warnings "-register-all".


(** ** Python built-ins *)

Module Py.

(** [c in s] for a one-character [c]. *)
Fixpoint contains (c : ascii) (s : string) : bool :=
  match s with
  | EmptyString => false
  | String d rest => if Ascii.eqb d c then true else contains c rest
  end.

(** [s.split(sep)] for a one-character separator: never empty. *)
Fixpoint split (sep : ascii) (s : string) : list string :=
  match s with
  | EmptyString => [EmptyString]
  | String c rest =>
      if Ascii.eqb c sep then EmptyString :: split sep rest
      else match split sep rest with
           | hd :: tl => String c hd :: tl
           | [] => [String c EmptyString]
           end
  end.

(** [s.split(sep, 1)]: cut at the first separator only. *)
Fixpoint split_once (sep : ascii) (s : string) : list string :=
  match s with
  | EmptyString => [EmptyString]
  | String c rest =>
      if Ascii.eqb c sep then [EmptyString; rest]
      else match split_once sep rest with
           | hd :: tl => String c hd :: tl
           | [] => [String c EmptyString]
           end
  end.

(** [s.rsplit(sep, 1)] when it yields two pieces: cut at the last
    separator; [None] when [sep] does not occur. *)
Fixpoint rsplit_once (sep : ascii) (s : string) : option (string * string) :=
  match s with
  | EmptyString => None
  | String c rest =>
      match rsplit_once sep rest with
      | Some (a, b) => Some (String c a, b)
      | None => if Ascii.eqb c sep then Some (EmptyString, rest) else None
      end
  end.

(** [sep.join(l)]. *)
Fixpoint join (sep : string) (l : list string) : string :=
  match l with
  | [] => EmptyString
  | [x] => x
  | x :: rest => x +:+ sep +:+ join sep rest
  end.

(** [str(n)] for a non-negative [int]. *)
Definition str_of_nat (n : nat) : string :=
  NilZero.string_of_uint (Nat.to_uint n).

(** [c.isspace()] on the 8-bit code points. *)
Definition isspace (c : ascii) : bool :=
  let n := nat_of_ascii c in
  ((9 <=? n) && (n <=? 13)) || ((28 <=? n) && (n <=? 32))
  || (n =? 133) || (n =? 160).

Fixpoint lstrip (s : string) : string :=
  match s with
  | EmptyString => EmptyString
  | String c rest => if isspace c then lstrip rest else s
  end.

Fixpoint rstrip (s : string) : string :=
  match s with
  | EmptyString => EmptyString
  | String c rest =>
      match rstrip rest with
      | EmptyString => if isspace c then EmptyString else String c EmptyString
      | kept => String c kept
      end
  end.

(** [s.strip()]. *)
Definition strip (s : string) : string := rstrip (lstrip s).

(** [s[:n]] and [s[n:]] for [n >= 0]. *)
Fixpoint str_take (n : nat) (s : string) : string :=
  match n, s with
  | S n', String c rest => String c (str_take n' rest)
  | _, _ => EmptyString
  end.

Fixpoint str_drop (n : nat) (s : string) : string :=
  match n, s with
  | S n', String c rest => str_drop n' rest
  | _, _ => s
  end.

(** [s[n]]: [None] stands for IndexError. *)
Fixpoint str_get (n : nat) (s : string) : option ascii :=
  match n, s with
  | 0, String c _ => Some c
  | S n', String _ rest => str_get n' rest
  | _, EmptyString => None
  end.

(** The first position of [c] in [s], counted from [pos]. *)
Fixpoint index_from (c : ascii) (s : string) (pos : nat) : option nat :=
  match s with
  | EmptyString => None
  | String d rest => if Ascii.eqb d c then Some pos else index_from c rest (S pos)
  end.

(** [s.find(c, start)]: the position, or -1. *)
Definition find (c : ascii) (s : string) (start : nat) : Z :=
  match index_from c (str_drop start s) start with
  | Some i => Z.of_nat i
  | None => (-1)%Z
  end.

(** [s[lo:hi]] for [lo >= 0]; a negative [hi] counts from the end. *)
Definition slice (s : string) (lo : nat) (hi : Z) : string :=
  let len := Z.of_nat (String.length s) in
  let stop := if (hi <? 0)%Z then Z.max 0 (len + hi) else hi in
  str_take (Z.to_nat stop - lo) (str_drop lo s).

(** [s.rstrip(c)] for a one-character [c]: the trailing run of [c] is dropped. *)
Fixpoint rstrip_char (c : ascii) (s : string) : string :=
  match s with
  | EmptyString => EmptyString
  | String d rest =>
      match rstrip_char c rest with
      | EmptyString => if Ascii.eqb d c then EmptyString else String d EmptyString
      | kept => String d kept
      end
  end.

(** [s.endswith(c)] for a one-character [c]. *)
Fixpoint endswith (c : ascii) (s : string) : bool :=
  match s with
  | EmptyString => false
  | String d EmptyString => Ascii.eqb d c
  | String _ rest => endswith c rest
  end.

(** [c.isdigit()] on the ASCII digits, the characters [strftime] writes
    for the numeric directives. *)
Definition isdigit (c : ascii) : bool :=
  let n := nat_of_ascii c in (48 <=? n) && (n <=? 57).

(** Truthiness of an [Optional[str]]: [None] and [""] are falsy. *)
Definition truthy (o : option string) : bool :=
  match o with
  | None => false
  | Some s => negb (String.eqb s "")
  end.

End Py.

(** ** The trace of collaborator calls *)

Inductive Event : Type :=
| JwtEncode                         (* jwt.encode: signing *)
| JwtDecode (token : string)        (* jwt.decode: signature and expiry checks *)
| SampleLookup (sample_id : string) (* MOCK_SAMPLES membership and indexing *)
| UploadParse (path_data : string)  (* path_data.split("|") *)
| TestDirectory.                    (* MOCK_TESTS read *)

Definition Traced (A : Type) : Type := list Event * A.

#[global] Instance traced_ret : MRet Traced := fun A a => ([], a).

#[global] Instance traced_bind : MBind Traced := fun A B f m =>
  let '(t1, a) := m in
  let '(t2, b) := f a in
  (t1 ++ t2, b).

Definition tell (e : Event) : Traced unit := ([e], tt).

Definition trace {A} (m : Traced A) : list Event := fst m.
Definition response {A} (m : Traced A) : A := snd m.

(** ** PyJWT, as main.py uses it *)

(** The payload [generate_token] writes; [exp] and [iat] are NumericDates,
    whole seconds since the epoch. *)
Record Claims : Type := mkClaims { sub : string; exp : Z; iat : Z }.

(** The exceptions [jwt.decode] raises here. Each one is a subclass of
    [jwt.InvalidTokenError], so the second [except] clause of
    [validate_token] catches whatever the first one lets through. *)
Inductive JwtError : Type :=
| ExpiredSignatureError
| InvalidSignatureError
| DecodeError.

Definition is_ExpiredSignatureError (e : JwtError) : bool :=
  match e with ExpiredSignatureError => true | _ => false end.

Inductive outcome (E A : Type) : Type :=
| Returns (a : A)
| Raises (e : E).
Arguments Returns {E A} a.
Arguments Raises {E A} e.

#[global] Instance outcome_ret {E} : MRet (outcome E) := fun A a => Returns a.

#[global] Instance outcome_bind {E} : MBind (outcome E) := fun A B f m =>
  match m with
  | Returns a => f a
  | Raises e => Raises e
  end.

Record HTTPException : Type := mkHTTPException { status_code : nat; detail : string }.

Definition microseconds_per_second : Z := 1000000.

(** [timedelta(minutes=m)]. *)
Definition timedelta_minutes (m : Z) : Z := (m * 60 * microseconds_per_second)%Z.

(** PyJWT writes a [datetime] claim as [timegm(dt.utctimetuple())]: the
    microseconds are dropped. *)
Definition numeric_date (t : Z) : Z := (t / microseconds_per_second)%Z.

(** ** Configuration and mock data of main.py *)

Definition ALGORITHM : string := "HS256".
Definition TOKEN_EXPIRATION_MINUTES : Z := 60.

Definition VALID_USERNAME : string := "wsadmin".
Definition VALID_PASSWORD : string := "password".

Record Sample : Type := mkSample {
  patient_id : string;
  patient_name : string;
  patient_gender : string;
  patient_dob : string;
  tests : list string
}.

Definition MOCK_SAMPLES : gmap string Sample :=
  <[ "S001" := mkSample "P12345" "John Doe" "M" "1980-01-15" ["CBC"; "GLU"; "CRE"] ]>
  (<[ "S002" := mkSample "P67890" "Jane Smith" "F" "1990-05-20" ["HBA1C"; "TSH"] ]> ∅).

(** A dict that is iterated: insertion order matters, an association list. *)
Definition MOCK_TESTS : list (string * string) :=
  [ ("CBC", "Complete Blood Count");
    ("GLU", "Glucose");
    ("CRE", "Creatinine");
    ("HBA1C", "Hemoglobin A1C");
    ("TSH", "Thyroid Stimulating Hormone");
    ("ALT", "Alanine Aminotransferase");
    ("AST", "Aspartate Aminotransferase") ].

Definition TAB : string := String (ascii_of_nat 9) EmptyString.

(** ** python-hl7, as server.py uses it

    Modelled from the spec: python-hl7 is a library outside the sources.
    The module models [hl7.parse] and the container operations the two
    handlers call. As in §3 and §4.3, a message is the ordered sequence
    of the segments between carriage returns, a segment the ordered
    sequence of its fields, the delimiters are the characters the MSH
    segment declares, and the message type is field 9 of MSH. Where the
    specification is silent the model follows the parser of python-hl7
    0.4: the text is stripped, the header fields are built apart, and the
    text is cut level by level (segments, fields, repetitions,
    components, sub-components). *)

(** The exceptions that can leave the [try] blocks of server.py. *)
Inductive Exception : Type :=
| UnicodeDecodeError
| ParseException
| IndexError
| KeyError
| AssertionError.

Module hl7.

(** A parsed part: a [str], or a container (Message, Segment, Field,
    Repetition, Component) that is a list of parts and knows the
    separator its [str()] joins them with. *)
Inductive Node : Type :=
| Leaf (text : string)
| Container (separator : ascii) (items : list Node).

(** [str(part)]. *)
Fixpoint to_str (n : Node) : string :=
  match n with
  | Leaf text => text
  | Container separator items =>
      Py.join (String separator EmptyString) (map to_str items)
  end.

(** [len(part)]. *)
Definition len (n : Node) : nat :=
  match n with
  | Leaf text => String.length text
  | Container _ items => length items
  end.

(** The parts a [for] loop over [n] visits; a [str] yields its characters. *)
Definition iter (n : Node) : list Node :=
  match n with
  | Leaf text => map (fun c => Leaf (String c EmptyString)) (list_ascii_of_string text)
  | Container _ items => items
  end.

(** [part[i]]. *)
Definition getitem (n : Node) (i : nat) : outcome Exception Node :=
  match iter n !! i with
  | Some x => Returns x
  | None => Raises IndexError
  end.

(** Truthiness: an empty list and an empty string are falsy. *)
Definition truthy (n : Node) : bool := negb (len n =? 0).

(** [part == s] for a [str] [s]: a container never equals a string. *)
Definition eq_str (n : Node) (s : string) : bool :=
  match n with
  | Leaf text => String.eqb text s
  | Container _ _ => false
  end.

Definition header_ids : list string := ["MSH"; "FHS"; "BHS"].

Definition is_header (text : string) : bool :=
  bool_decide (Py.str_take 3 text ∈ header_ids).

Definition CR : ascii := ascii_of_nat 13.

Definition getchar (s : string) (i : nat) : outcome Exception ascii :=
  match Py.str_get i s with
  | Some c => Returns c
  | None => Raises IndexError
  end.

(** The five delimiters of [create_parse_plan]: segment, field,
    repetition, component, sub-component. *)
Definition create_parse_plan (strmsg : string) : outcome Exception string :=
  if negb (is_header strmsg) then Raises ParseException
  else
    sep0 ← getchar strmsg 3;
    let seps := Py.slice strmsg 3 (Py.find sep0 strmsg 4) in
    s0 ← getchar seps 0;
    let rep := default "~"%char (Py.str_get 2 seps) in
    let comp := default "^"%char (Py.str_get 1 seps) in
    let sub := default "&"%char (Py.str_get 4 seps) in
    mret (String CR (String s0 (String rep (String comp (String sub EmptyString))))).

(** [separators[separators.find(separator):]], the delimiters of this
    level and of the levels below. *)
Definition separators_from (separators : string) (separator : ascii) : string :=
  match Py.index_from separator separators 0 with
  | Some i => Py.str_drop i separators
  | None => Py.str_drop (String.length separators - 1) separators
  end.

(** [plan.applies(text)]. *)
Definition applies (separators : string) (separator : ascii) (text : string) : bool :=
  existsb (fun s => Py.contains s text)
          (list_ascii_of_string (separators_from separators separator)).

(** The separator a container of the level with [containers] containers
    left joins its items with: a Message the first delimiter, a Segment
    the second, and so on. *)
Definition own_separator (separators : string) (containers : nat) : ascii :=
  default CR (Py.str_get (5 - containers) separators).

(** [plan.next()]: the delimiter of the level below,
    [separators[separators.find(separator) + 1]]. The constructor of the
    new plan asserts that as many delimiters as containers are left.
    With one container left there is no next plan; the delimiter
    returned then is not used. *)
Definition next (separators : string) (separator : ascii) (containers : nat)
  : outcome Exception ascii :=
  if (1 <? containers)%nat then
    let i := match Py.index_from separator separators 0 with
             | Some i => S i
             | None => 0
             end in
    separator' ← getchar separators i;
    if (containers - 1 =? String.length (separators_from separators separator'))%nat
    then mret separator'
    else Raises AssertionError
  else mret separator.

(** [[f(x) for x in l]] with exceptions. *)
Fixpoint for_each {A B} (f : A -> outcome Exception B) (l : list A) : outcome Exception (list B) :=
  match l with
  | [] => Returns []
  | x :: rest =>
      match f x with
      | Raises e => Raises e
      | Returns y =>
          match for_each f rest with
          | Raises e => Raises e
          | Returns ys => Returns (y :: ys)
          end
      end
  end.

(** The header fields [_split] builds for an MSH, FHS or BHS segment,
    and the text that is left to split. *)
Definition split_header (separators : string) (text : string)
  : outcome Exception (list Node * string) :=
  sep0 ← getchar text 3;
  let sep_end_off := Py.find sep0 text 4 in
  let field := Container (own_separator separators 3) in
  mret ([ field [Leaf (Py.str_take 3 text)];
          field [Leaf (String sep0 EmptyString)];
          field [Leaf (Py.slice text 4 sep_end_off)] ],
        Py.str_drop (Z.to_nat (sep_end_off + 1)) text).

(** [_split(text, plan)]. The plan is the pair of the number of
    containers still to build (0 is the plan [None]) and the delimiter
    of the current level; the segment level is the one with 4 containers
    left. *)
Fixpoint _split (separators : string) (containers : nat) (separator : ascii)
  (text : string) : outcome Exception Node :=
  match containers with
  | 0 => Returns (Leaf text)
  | S deeper =>
      let container := Container (own_separator separators containers) in
      if negb (applies separators separator text)
      then Returns (container [Leaf text])
      else
        match (if (containers =? 4)%nat && is_header text
               then split_header separators text
               else Returns ([], text)) with
        | Raises e => Raises e
        | Returns (data, EmptyString) => Returns (container data)
        | Returns (data, text) =>
            match next separators separator containers with
            | Raises e => Raises e
            | Returns separator' =>
                match for_each (_split separators deeper separator')
                               (Py.split separator text) with
                | Raises e => Raises e
                | Returns parts => Returns (container (data ++ parts))
                end
            end
        end
  end.

(** Modelled from the spec: [hl7.parse(lines)], the [parse] of §4.3. *)
Definition parse (lines : string) : outcome Exception Node :=
  let strmsg := Py.strip lines in
  separators ← create_parse_plan strmsg;
  _split separators 5 CR strmsg.

(** [message.segments(segment_id)]: every segment is tested, then an
    empty result is a KeyError. *)
Definition segments (message : Node) (segment_id : string) : outcome Exception (list Node) :=
  tested ← for_each (fun segment =>
                       field ← getitem segment 0;
                       name ← getitem field 0;
                       mret (segment, eq_str name segment_id))
                    (iter message);
  match filter (fun p => Is_true (snd p)) tested with
  | [] => Raises KeyError
  | matches => mret (map fst matches)
  end.

(** [message.segment(segment_id)]. *)
Definition segment (message : Node) (segment_id : string) : outcome Exception Node :=
  matches ← segments message segment_id;
  match matches with
  | m :: _ => mret m
  | [] => Raises IndexError
  end.

End hl7.

(** ** server.py *)

Inductive json : Type :=
| JNull
| JBool (b : bool)
| JNum (n : nat)
| JStr (s : string)
| JList (l : list json)
| JObject (fields : list (string * json)).

(** [jsonify(dict), status]. *)
Record Response : Type := mkResponse { body : list (string * json); status : nat }.

Record MessageRecord : Type := mkMessageRecord {
  timestamp : string;
  message_type : string;
  raw_message : string;
  segment_count : nat
}.

Definition record_json (r : MessageRecord) : json :=
  JObject [ ("timestamp", JStr (timestamp r));
            ("message_type", JStr (message_type r));
            ("raw_message", JStr (raw_message r));
            ("segment_count", JNum (segment_count r)) ].

(** The two-segment message of the specification's fidelity example;
    each segment ends with a carriage return. *)
Definition fidelity_example : string :=
  "MSH|^~\&|A|B|C|D|20250101120000||ADT^A01|MSG1|P|2.5" +:+ String hl7.CR EmptyString
  +:+ "EVN|A01" +:+ String hl7.CR EmptyString.

(** The ADT^A01 fixture of test_server.py. *)
Definition sample_hl7_message : string :=
  "MSH|^~\&|SENDING_APP|SENDING_FAC|RECEIVING_APP|RECEIVING_FAC|20250101120000||ADT^A01|MSG00001|P|2.5"
  +:+ String hl7.CR EmptyString
  +:+ "EVN|A01|20250101120000" +:+ String hl7.CR EmptyString
  +:+ "PID|1||12345^^^MRN||DOE^JOHN^A||19800101|M|||123 MAIN ST^^CITY^ST^12345"
  +:+ String hl7.CR EmptyString
  +:+ "PV1|1|I|WARD^ROOM^BED||||DOCTOR^ATTENDING|||||||||||VISIT123"
  +:+ String hl7.CR EmptyString.

(** [request.data.decode('utf-8')]: the request carries its body as the
    decoded text, or [None] where the bytes are not UTF-8. *)
Definition decode (request_data : option string) : outcome Exception string :=
  match request_data with
  | Some text => Returns text
  | None => Raises UnicodeDecodeError
  end.

(** [str(message.segment('MSH')[9]) if message.segment('MSH') else dflt]. *)
Definition msh_9_or {A} (message : hl7.Node) (some : string -> A) (dflt : A)
  : outcome Exception A :=
  cond ← hl7.segment message "MSH";
  if hl7.truthy cond then
    msh ← hl7.segment message "MSH";
    field ← hl7.getitem msh 9;
    mret (some (hl7.to_str field))
  else mret dflt.

(** A handler takes the store [received_messages] and returns it next to
    its response. [now] is [datetime.now(timezone.utc).isoformat()]. *)
Definition receive_hl7_message (request_data : option string) (now : string)
  (received_messages : list MessageRecord) : Response * list MessageRecord :=
  let try : outcome Exception (Response * list MessageRecord) :=
    message_data ← decode request_data;
    if String.eqb message_data "" then
      mret (mkResponse [("error", JStr "No message data provided")] 400,
            received_messages)
    else
      message ← hl7.parse message_data;
      message_type ← msh_9_or message id "Unknown";
      let message_record :=
        {| timestamp := now;
           message_type := message_type;
           raw_message := message_data;
           segment_count := hl7.len message |} in
      let received_messages := received_messages ++ [message_record] in
      mret (mkResponse [ ("status", JStr "success");
                         ("message_type", JStr message_type);
                         ("segment_count", JNum (hl7.len message));
                         ("timestamp", JStr (timestamp message_record)) ] 200,
            received_messages) in
  match try with
  | Returns r => r
  | Raises _ =>
      (mkResponse [("error", JStr "Failed to parse HL7 message")] 400,
       received_messages)
  end.

Definition get_messages (received_messages : list MessageRecord)
  : Response * list MessageRecord :=
  (mkResponse [ ("count", JNum (length received_messages));
                ("messages", JList (map record_json received_messages)) ] 200,
   received_messages).

Definition clear_messages (received_messages : list MessageRecord)
  : Response * list MessageRecord :=
  let count := length received_messages in
  (mkResponse [ ("status", JStr "success"); ("cleared_count", JNum count) ] 200,
   []).

Definition validate_hl7_message (request_data : option string)
  (received_messages : list MessageRecord) : Response * list MessageRecord :=
  let try : outcome Exception Response :=
    message_data ← decode request_data;
    if String.eqb message_data "" then
      mret (mkResponse [ ("valid", JBool false);
                         ("error", JStr "No message data provided") ] 400)
    else
      message ← hl7.parse message_data;
      message_type ← msh_9_or message JStr JNull;
      let segment_count := hl7.len message in
      has_msh ← (_ ← hl7.segment message "MSH"; mret true);
      segments ← hl7.for_each (fun seg => f ← hl7.getitem seg 0; mret (JStr (hl7.to_str f)))
                              (hl7.iter message);
      mret (mkResponse [ ("valid", JBool true);
                         ("message_type", message_type);
                         ("segment_count", JNum segment_count);
                         ("has_msh", JBool has_msh);
                         ("segments", JList segments) ] 200) in
  match try with
  | Returns r => (r, received_messages)
  | Raises _ =>
      (mkResponse [ ("valid", JBool false);
                    ("error", JStr "Invalid HL7 message format") ] 200,
       received_messages)
  end.

(** [now] is [datetime.now(timezone.utc).isoformat()]. *)
Definition health_check (now : string) (received_messages : list MessageRecord)
  : Response * list MessageRecord :=
  (mkResponse [("status", JStr "healthy"); ("timestamp", JStr now)] 200,
   received_messages).

(** The routes of server.py, each with what the request brings along. *)
Inductive Request : Type :=
| GET_health (now : string)
| POST_message (request_data : option string) (now : string)
| GET_messages
| DELETE_messages
| POST_validate (request_data : option string).

(** The route table: the handler each [@app.route] binds. *)
Definition dispatch (request : Request) (received_messages : list MessageRecord)
  : Response * list MessageRecord :=
  match request with
  | GET_health now => health_check now received_messages
  | POST_message request_data now => receive_hl7_message request_data now received_messages
  | GET_messages => get_messages received_messages
  | DELETE_messages => clear_messages received_messages
  | POST_validate request_data => validate_hl7_message request_data received_messages
  end.

(** The process serving requests one after the other. *)
Fixpoint serve (requests : list Request) (received_messages : list MessageRecord)
  : list Response * list MessageRecord :=
  match requests with
  | [] => ([], received_messages)
  | request :: rest =>
      let '(answer, received_messages) := dispatch request received_messages in
      let '(answers, received_messages) := serve rest received_messages in
      (answer :: answers, received_messages)
  end.

Definition is_clear (request : Request) : bool :=
  match request with DELETE_messages => true | _ => false end.

(** The routes whose handler assigns to or appends to the store. *)
Definition writes (request : Request) : bool :=
  match request with
  | POST_message _ _ | DELETE_messages => true
  | GET_health _ | GET_messages | POST_validate _ => false
  end.

(** A request to the receive route that was answered with success. *)
Definition accepted (exchange : Request * Response) : bool :=
  match exchange.1 with
  | POST_message _ _ => (status exchange.2 =? 200)%nat
  | _ => false
  end.

(** The text is a message the handlers accept: it is not empty, it
    parses, it has an MSH segment with a field 9, whose text is
    [message_type], and it has [segment_count] segments. *)
Definition acceptable (message_data message_type : string) (segment_count : nat) : Prop :=
  message_data ≠ ""
  ∧ ∃ message msh field,
      hl7.parse message_data = Returns message
      ∧ hl7.segment message "MSH" = Returns msh
      ∧ hl7.getitem msh 9 = Returns field
      ∧ message_type = hl7.to_str field
      ∧ segment_count = hl7.len message.

(** A record of the store describes its own raw text. *)
Definition well_stored (r : MessageRecord) : Prop :=
  acceptable (raw_message r) (message_type r) (segment_count r)
  ∧ 1 ≤ segment_count r.

(** ** api_client_tester.py: the base URL of [APIClient] *)

(** [APIClient.__init__]: the object is its [base_url]. *)
Definition APIClient (base_url : string) : string := Py.rstrip_char "/" base_url.

(** The [url] every request method builds, [f"{self.base_url}{endpoint}"]. *)
Definition APIClient_url (self : string) (endpoint : string) : string :=
  self +:+ endpoint.

(** ** client.py: the sample message of the test client *)

(** The delimiters of a message whose MSH segment declares [|^~\&]. *)
Definition standard_separators : string := String hl7.CR "|~^&".

Definition sample_fields : string :=
  "SENDING_APP|SENDING_FAC|RECEIVING_APP|RECEIVING_FAC|".

Definition sample_msh_tail : string := "||ADT^A01|MSG00001|P|2.5".

(** The three segments behind MSH. Only the MSH line of the source is an
    f-string: the braces of the EVN line are sent as they stand. *)
Definition sample_segments : string :=
  "EVN|A01|{datetime.now().strftime('%Y%m%d%H%M%S')}" +:+ String hl7.CR EmptyString
  +:+ "PID|1||12345^^^MRN||DOE^JOHN^A||19800101|M|||123 MAIN ST^^CITY^ST^12345"
  +:+ String hl7.CR EmptyString
  +:+ "PV1|1|I|WARD^ROOM^BED||||DOCTOR^ATTENDING|||||||||||VISIT123".

(** [create_sample_hl7_message()], with [now] the text of
    [datetime.now().strftime('%Y%m%d%H%M%S')]. *)
Definition create_sample_hl7_message (now : string) : string :=
  "MSH|^~\&|" +:+ sample_fields +:+ now +:+ sample_msh_tail +:+ String hl7.CR EmptyString
  +:+ sample_segments +:+ String hl7.CR EmptyString.

(** What [strftime('%Y%m%d%H%M%S')] returns is made of digits. *)
Definition is_timestamp (now : string) : Prop :=
  Forall (λ c, Py.isdigit c = true) (list_ascii_of_string now).

(** The MSH segment of the sample message, parsed. *)
Definition sample_msh (now : string) : hl7.Node :=
  hl7.Container "|"
    ([ hl7.Container "~" [hl7.Leaf "MSH"];
       hl7.Container "~" [hl7.Leaf "|"];
       hl7.Container "~" [hl7.Leaf "^~\&"] ]
     ++
     [ hl7.Container "~" [hl7.Leaf "SENDING_APP"];
       hl7.Container "~" [hl7.Leaf "SENDING_FAC"];
       hl7.Container "~" [hl7.Leaf "RECEIVING_APP"];
       hl7.Container "~" [hl7.Leaf "RECEIVING_FAC"];
       hl7.Container "~" [hl7.Leaf now];
       hl7.Container "~" [hl7.Leaf ""];
       hl7.Container "~"
         [hl7.Container "^"
            [hl7.Container "&" [hl7.Leaf "ADT"];
             hl7.Container "&" [hl7.Leaf "A01"]]];
       hl7.Container "~" [hl7.Leaf "MSG00001"];
       hl7.Container "~" [hl7.Leaf "P"];
       hl7.Container "~" [hl7.Leaf "2.5"] ]).

(** The three segments behind MSH, parsed. *)
Definition sample_parsed_segments : list hl7.Node :=
  Eval vm_compute in
    match hl7.for_each (hl7._split standard_separators 4 "|")
                       (Py.split hl7.CR sample_segments) with
    | Returns segments => segments
    | Raises _ => []
    end.

(** ** The documented upload line *)

(** [SampleId|TestCode1=Result1|TestCode2=Result2|...], the input format
    in the docstring of [upload_results]. *)
Definition upload_line (sample_id : string) (results : list (string * string)) : string :=
  Py.join "|" (sample_id :: map (λ '(test_code, result), test_code +:+ "=" +:+ result) results).

(** ** The upload status, in the words of the specification *)

(** A part is a result for an ordered test when the text before its
    first [=] is one of the sample's test codes. *)
Definition names_ordered_test (sample_tests : list string) (part : string) : Prop :=
  ∃ test_code result,
    part = test_code +:+ "=" +:+ result
    ∧ Py.contains "=" test_code = false
    ∧ test_code ∈ sample_tests.

(** The same with exactly one [=] in the part. *)
Definition names_ordered_test_once (sample_tests : list string) (part : string) : Prop :=
  ∃ test_code result,
    part = test_code +:+ "=" +:+ result
    ∧ Py.contains "=" test_code = false
    ∧ Py.contains "=" result = false
    ∧ test_code ∈ sample_tests.

(** One flag per part, in order: UPLOADED where [accepted] holds of the
    part, NOT_FOUND where it does not. *)
Definition flags_of (accepted : string -> Prop) (parts flags : list string) : Prop :=
  Forall2 (fun part flag =>
             (accepted part ∧ flag = "UPLOADED") ∨ (¬ accepted part ∧ flag = "NOT_FOUND"))
          parts flags.

(** What results-upload answers for the raw input [raw], given the rule
    [accepted] that decides a flag. *)
Definition upload_answer (accepted : list string -> string -> Prop)
  (raw answer : string) : Prop :=
  let parts := Py.split "|" raw in
  ((length parts < 2 ∨ MOCK_SAMPLES !! default "" (head parts) = None)
   ∧ answer = "NOT_FOUND")
  ∨ (∃ sample flags,
       2 ≤ length parts
       ∧ MOCK_SAMPLES !! default "" (head parts) = Some sample
       ∧ flags_of (accepted (tests sample)) (drop 1 parts) flags
       ∧ answer = Py.join "|" flags).

(** ** A small instance of the PyJWT primitives

    Concrete runs of the handlers need concrete primitives. The instance
    writes a number in binary, the claims as [exp,iat,sub], and signs by
    appending the key to the signing input with every dot replaced. *)

Module Demo.

Fixpoint enc_pos (p : positive) : string :=
  match p with
  | xH => EmptyString
  | xO q => String "0" (enc_pos q)
  | xI q => String "1" (enc_pos q)
  end.

Fixpoint dec_pos (s : string) : option positive :=
  match s with
  | EmptyString => Some xH
  | String c rest =>
      if Ascii.eqb c "0" then xO <$> dec_pos rest
      else if Ascii.eqb c "1" then xI <$> dec_pos rest
      else None
  end.

Definition enc_Z (z : Z) : string :=
  match z with
  | Z0 => "z"
  | Zpos p => String "p" (enc_pos p)
  | Zneg p => String "n" (enc_pos p)
  end.

Definition dec_Z (s : string) : option Z :=
  match s with
  | EmptyString => None
  | String c rest =>
      if Ascii.eqb c "z" then (if String.eqb rest "" then Some 0%Z else None)
      else if Ascii.eqb c "p" then Zpos <$> dec_pos rest
      else if Ascii.eqb c "n" then Zneg <$> dec_pos rest
      else None
  end.

Definition encode_segments (c : Claims) : string :=
  enc_Z (exp c) +:+ "," +:+ enc_Z (iat c) +:+ "," +:+ sub c.

Definition decode_segments (s : string) : option Claims :=
  match Py.split_once "," s with
  | [e; rest] =>
      match Py.split_once "," rest with
      | [i; u] =>
          e' ← dec_Z e;
          i' ← dec_Z i;
          Some (mkClaims u e' i')
      | _ => None
      end
  | _ => None
  end.

Fixpoint undot (s : string) : string :=
  match s with
  | EmptyString => EmptyString
  | String c rest => String (if Ascii.eqb c "." then "_"%char else c) (undot rest)
  end.

Definition hs256 (key m : string) : string := undot (m +:+ key).

Definition SECRET_KEY : string := "q7Jx2c_demo-key".

(** Three instants: the two clock readings of a login at
    2025-01-01T12:00:00.25Z, and a request half an hour later. *)
Definition now_exp : Z := 1735732800250000.
Definition now_iat : Z := 1735732800250013.
Definition later : Z := 1735734600000000.

End Demo.

Section Main.

(** *** What PyJWT and the process contribute

    [hs256 key m] is the signature segment (base64url of the HMAC-SHA256
    of the signing input [m]); [encode_segments c] is the signing input
    of the claims [c] (the base64url header and payload segments joined
    by a dot); [decode_segments] reads a signing input back and is
    [None] where the header or the payload does not decode.
    [SECRET_KEY] is [secrets.token_urlsafe(32)], drawn once per process. *)
Variable hs256 : string -> string -> string.
Variable encode_segments : Claims -> string.
Variable decode_segments : string -> option Claims.
Variable SECRET_KEY : string.

(** Modelled from the spec: [jwt.encode(payload, key, algorithm="HS256")]
    of PyJWT, a library outside the sources. The token is the opaque
    string of §3, the signing input followed by a dot and the signature. *)
Definition jwt_encode (payload : Claims) (key : string) : string :=
  let signing_input := encode_segments payload in
  signing_input +:+ "." +:+ hs256 key signing_input.

(** Modelled from the spec: [jwt.decode(token, key, algorithms=["HS256"])]
    of PyJWT, a library outside the sources, at the instant [now]. As in
    §3 and §4.1, a token is valid iff its signature verifies and the
    current time is before expires-at: the token is cut at its last dot
    into signing input and signature, the signature is verified, the
    payload is read, and [exp] is checked with no leeway ([exp <= now]
    is expired). These are the checks the two [except] clauses of
    [validate_token] tell apart; the payloads are the claim sets
    [generate_token] writes, and PyJWT's further checks on registered
    claims (an [iat] or [nbf] in the future) are outside the model. *)
Definition jwt_decode (token : option string) (key : string) (now : Z)
  : outcome JwtError Claims :=
  match token with
  | None => Raises DecodeError
  | Some t =>
      match Py.rsplit_once "." t with
      | None => Raises DecodeError
      | Some (signing_input, crypto_segment) =>
          if negb (String.eqb crypto_segment (hs256 key signing_input))
          then Raises InvalidSignatureError
          else match decode_segments signing_input with
               | None => Raises DecodeError
               | Some payload =>
                   if (exp payload * microseconds_per_second <=? now)%Z
                   then Raises ExpiredSignatureError
                   else Returns payload
               end
      end
  end.

(** *** main.py *)

(** The clock is read twice, first for [exp], then for [iat]. *)
Definition generate_token (username : string) (now_exp now_iat : Z) : Traced string :=
  let payload :=
    {| sub := username;
       exp := numeric_date (now_exp + timedelta_minutes TOKEN_EXPIRATION_MINUTES);
       iat := numeric_date now_iat |} in
  tell JwtEncode ;;
  mret (jwt_encode payload SECRET_KEY).

Definition validate_token (token : option string) (now : Z)
  : Traced (outcome HTTPException Claims) :=
  tell (JwtDecode (default "" token)) ;;
  match jwt_decode token SECRET_KEY now with
  | Returns payload => mret (Returns payload)
  | Raises e =>
      if is_ExpiredSignatureError e
      then mret (Raises (mkHTTPException 401 "EXPIRED_TOKEN"))
      else (* except jwt.InvalidTokenError *)
        mret (Raises (mkHTTPException 401 "INVALID_LOGIN"))
  end.

Definition login (userName password : string) (now_exp now_iat : Z) : Traced string :=
  if String.eqb userName VALID_USERNAME && String.eqb password VALID_PASSWORD
  then
    token ← generate_token userName now_exp now_iat;
    mret ("OK_LOGIN|" +:+ token)
  else mret "INVALID_LOGIN".

Definition get_pending_tests (sample_id : string) (token : option string) (now : Z)
  : Traced string :=
  if negb (Py.truthy token) then mret "INVALID_LOGIN"
  else
    v ← validate_token token now;
    match v with
    | Raises e => mret (detail e)
    | Returns _ =>
        tell (SampleLookup sample_id) ;;
        match MOCK_SAMPLES !! sample_id with
        | None => mret "NOT_FOUND"
        | Some sample =>
            let test_count := length (tests sample) in
            let response_parts :=
              [ "QUERY_OK";
                Py.str_of_nat test_count;
                patient_id sample;
                patient_name sample;
                patient_gender sample;
                patient_dob sample ] in
            let response_parts := response_parts ++ tests sample in
            mret (Py.join "|" response_parts)
        end
    end.

(** The body of the upload loop for one part [parts[i]]. The tuple
    unpacking raises [ValueError] unless the split has two pieces; the
    [except ValueError] clause answers NOT_FOUND. *)
Definition status_flag (sample_tests : list string) (part : string) : string :=
  if Py.contains "=" part then
    match Py.split_once "=" part with
    | [test_code; result] =>
        if bool_decide (test_code ∈ sample_tests) then "UPLOADED" else "NOT_FOUND"
    | _ => "NOT_FOUND"
    end
  else "NOT_FOUND".

Definition upload_results (path_data : string) (token : option string) (now : Z)
  : Traced string :=
  if negb (Py.truthy token) then mret "INVALID_LOGIN"
  else
    v ← validate_token token now;
    match v with
    | Raises e => mret (detail e)
    | Returns _ =>
        tell (UploadParse path_data) ;;
        let parts := Py.split "|" path_data in
        if (length parts <? 2)%nat then mret "NOT_FOUND"
        else
          let sample_id := default "" (head parts) in
          tell (SampleLookup sample_id) ;;
          match MOCK_SAMPLES !! sample_id with
          | None => mret "NOT_FOUND"
          | Some sample =>
              let status_flags := map (status_flag (tests sample)) (drop 1 parts) in
              mret (Py.join "|" status_flags)
          end
    end.

Definition get_tests_list (token : option string) (now : Z) : Traced string :=
  if negb (Py.truthy token) then mret "INVALID_LOGIN"
  else
    v ← validate_token token now;
    match v with
    | Raises e => mret (detail e)
    | Returns _ =>
        tell TestDirectory ;;
        match MOCK_TESTS with
        | [] => mret "NOT_FOUND"
        | _ =>
            let test_count := length MOCK_TESTS in
            let response_parts :=
              [ "QUERY_OK"; Py.str_of_nat test_count ]
              ++ map (fun '(test_code, test_name) => test_code +:+ TAB +:+ test_name)
                     MOCK_TESTS in
            mret (Py.join "|" response_parts)
        end
    end.

(** The events that belong to the protocol logic behind the gate. *)
Definition business (e : Event) : bool :=
  match e with
  | SampleLookup _ | UploadParse _ | TestDirectory => true
  | JwtEncode | JwtDecode _ => false
  end.

(** The three gated analyzer endpoints, on one request each. *)
Definition gated_endpoints (sample_id path_data : string) (token : option string)
  (now : Z) : list (Traced string) :=
  [ get_pending_tests sample_id token now;
    upload_results path_data token now;
    get_tests_list token now ].

(** The token's signature verifies and its payload reads as [claims]. *)
Definition signed_claims (token : option string) (claims : Claims) : Prop :=
  ∃ t signing_input signature,
    token = Some t
    ∧ Py.rsplit_once "." t = Some (signing_input, signature)
    ∧ signature = hs256 SECRET_KEY signing_input
    ∧ decode_segments signing_input = Some claims.

(** The token is absent, malformed, or its signature does not verify. *)
Definition rejected (token : option string) : Prop :=
  token = None
  ∨ ∃ t, token = Some t
      ∧ (Py.rsplit_once "." t = None
         ∨ ∃ signing_input signature,
             Py.rsplit_once "." t = Some (signing_input, signature)
             ∧ (signature ≠ hs256 SECRET_KEY signing_input
                ∨ decode_segments signing_input = None)).

(** Every gated endpoint has this shape: [rest] is what runs behind the gate. *)
Definition gated (rest : Traced string) (token : option string) (now : Z) : Traced string :=
  if negb (Py.truthy token) then mret "INVALID_LOGIN"
  else
    v ← validate_token token now;
    match v with
    | Raises e => mret (detail e)
    | Returns _ => rest
    end.

(** The output [r] of a gated endpoint was produced at the gate: it is the
    sentinel of the failure, and nothing behind the gate was touched. *)
Definition answered_at_gate (token : option string) (now : Z) (r : Traced string) : Prop :=
  (token = None → r = ([], "INVALID_LOGIN"))
  ∧ (∀ e, response (validate_token token now) = Raises e →
          response r = detail e
          ∧ (detail e = "INVALID_LOGIN" ∨ detail e = "EXPIRED_TOKEN"))
  ∧ (rejected token → response r = "INVALID_LOGIN")
  ∧ (∀ claims, signed_claims token claims →
               (exp claims * microseconds_per_second ≤ now)%Z →
               response r = "EXPIRED_TOKEN")
  ∧ Forall (λ ev, business ev = false) (trace r).

(** * Properties *)

(** ** Strings *)

Lemma contains_app_sep sep a b : Py.contains sep (a +:+ String sep b) = true.
Proof.
  induction a as [|c a IH]; simpl.
  - by rewrite Ascii.eqb_refl.
  - destruct (Ascii.eqb c sep); [done | exact IH].
Qed.

Lemma rsplit_once_none sep s :
  Py.contains sep s = false → Py.rsplit_once sep s = None.
Proof.
  induction s as [|c s IH]; simpl; [done |].
  destruct (Ascii.eqb c sep); [done |].
  intros H. by rewrite (IH H).
Qed.

Lemma rsplit_once_app sep a b :
  Py.contains sep b = false → Py.rsplit_once sep (a +:+ String sep b) = Some (a, b).
Proof.
  intros Hb. induction a as [|c a IH]; simpl.
  - by rewrite (rsplit_once_none _ _ Hb), Ascii.eqb_refl.
  - by rewrite IH.
Qed.

Lemma split_once_app sep a b :
  Py.contains sep a = false → Py.split_once sep (a +:+ String sep b) = [a; b].
Proof.
  induction a as [|c a IH]; simpl.
  - by rewrite Ascii.eqb_refl.
  - destruct (Ascii.eqb c sep); [done |]. intros H. by rewrite (IH H).
Qed.

Lemma split_once_cut sep s :
  Py.contains sep s = true →
  ∃ a b, Py.split_once sep s = [a; b] ∧ s = a +:+ String sep b ∧ Py.contains sep a = false.
Proof.
  induction s as [|c s IH]; simpl; [done |].
  destruct (Ascii.eqb c sep) eqn:Hc.
  - intros _. apply Ascii.eqb_eq in Hc as ->. by exists EmptyString, s.
  - intros H. destruct (IH H) as (a & b & Hs & -> & Ha).
    exists (String c a), b. rewrite Hs. simpl. by rewrite Hc.
Qed.

Lemma cut_unique sep a b a' b' :
  Py.contains sep a = false → Py.contains sep a' = false →
  a +:+ String sep b = a' +:+ String sep b' → a = a' ∧ b = b'.
Proof.
  intros Ha Ha' E.
  pose proof (split_once_app sep a b Ha) as H1.
  rewrite E, (split_once_app sep a' b' Ha') in H1.
  by injection H1 as -> ->.
Qed.

(** ** The trace monad *)

Lemma response_bind {A B} (m : Traced A) (f : A → Traced B) :
  response (m ≫= f) = response (f (response m)).
Proof. destruct m as [t a]. unfold response, mbind, traced_bind. simpl. by destruct (f a). Qed.

Lemma trace_bind {A B} (m : Traced A) (f : A → Traced B) :
  trace (m ≫= f) = trace m ++ trace (f (response m)).
Proof. destruct m as [t a]. unfold trace, mbind, traced_bind. simpl. by destruct (f a). Qed.

(** ** The token service *)

Lemma validate_token_response token now :
  response (validate_token token now) =
  match jwt_decode token SECRET_KEY now with
  | Returns payload => Returns payload
  | Raises ExpiredSignatureError => Raises (mkHTTPException 401 "EXPIRED_TOKEN")
  | Raises _ => Raises (mkHTTPException 401 "INVALID_LOGIN")
  end.
Proof.
  unfold validate_token. rewrite response_bind.
  destruct (jwt_decode token SECRET_KEY now) as [c|[]]; reflexivity.
Qed.

Lemma validate_token_trace token now :
  trace (validate_token token now) = [JwtDecode (default "" token)].
Proof.
  unfold validate_token. rewrite trace_bind.
  destruct (jwt_decode token SECRET_KEY now) as [c|[]]; reflexivity.
Qed.

Lemma validate_token_detail token now e :
  response (validate_token token now) = Raises e →
  detail e = "INVALID_LOGIN" ∨ detail e = "EXPIRED_TOKEN".
Proof.
  rewrite validate_token_response.
  destruct (jwt_decode token SECRET_KEY now) as [c|[]]; intros [= <-]; auto.
Qed.

Lemma validated_is_truthy token now claims :
  response (validate_token token now) = Returns claims → Py.truthy token = true.
Proof.
  rewrite validate_token_response. destruct token as [t|]; [|done].
  destruct t; [done | reflexivity].
Qed.

Lemma jwt_decode_cases token now :
  match jwt_decode token SECRET_KEY now with
  | Returns claims =>
      signed_claims token claims ∧ (now < exp claims * microseconds_per_second)%Z
  | Raises ExpiredSignatureError =>
      ∃ claims, signed_claims token claims
                ∧ (exp claims * microseconds_per_second ≤ now)%Z
  | Raises _ => rejected token
  end.
Proof.
  unfold jwt_decode, signed_claims, rejected.
  destruct token as [t|]; [|by left].
  destruct (Py.rsplit_once "." t) as [[si sg]|] eqn:Hcut; [|right; eauto].
  destruct (String.eqb sg (hs256 SECRET_KEY si)) eqn:Hsig; simpl.
  - apply String.eqb_eq in Hsig.
    destruct (decode_segments si) as [c|] eqn:Hdec.
    + destruct (Z.leb_spec (exp c * microseconds_per_second) now).
      * exists c. split; [|done]. by exists t, si, sg.
      * split; [|done]. by exists t, si, sg.
    + right. exists t. split; [done|]. right. exists si, sg. auto.
  - apply String.eqb_neq in Hsig.
    right. exists t. split; [done|]. right. exists si, sg. auto.
Qed.

Lemma signed_claims_unique token c1 c2 :
  signed_claims token c1 → signed_claims token c2 → c1 = c2.
Proof.
  intros (t & si & sg & -> & Hcut & _ & Hdec) (t' & si' & sg' & [= <-] & Hcut' & _ & Hdec').
  congruence.
Qed.

Lemma signed_not_rejected token c : signed_claims token c → ¬ rejected token.
Proof.
  intros (t & si & sg & -> & Hcut & Hsig & Hdec) [|(t' & [= <-] & [Hn|(si' & sg' & Hcut' & H)])];
    [done | congruence |].
  rewrite Hcut in Hcut'. injection Hcut' as <- <-. destruct H; congruence.
Qed.

Lemma login_valid now_exp now_iat :
  response (login VALID_USERNAME VALID_PASSWORD now_exp now_iat)
  = "OK_LOGIN|" +:+ response (generate_token VALID_USERNAME now_exp now_iat).
Proof. unfold login. cbn [String.eqb andb]. reflexivity. Qed.

Lemma login_invalid userName password now_exp now_iat :
  ¬ (userName = VALID_USERNAME ∧ password = VALID_PASSWORD) →
  login userName password now_exp now_iat = ([], "INVALID_LOGIN").
Proof.
  intros Hn. unfold login.
  destruct (String.eqb_spec userName VALID_USERNAME) as [Hu|Hu];
    destruct (String.eqb_spec password VALID_PASSWORD) as [Hp|Hp];
    simpl; try reflexivity.
  by destruct Hn.
Qed.

Lemma rejected_raises token now :
  rejected token →
  response (validate_token token now) = Raises (mkHTTPException 401 "INVALID_LOGIN").
Proof.
  intros Hr. rewrite validate_token_response.
  pose proof (jwt_decode_cases token now) as H.
  destruct (jwt_decode token SECRET_KEY now) as [c|[]]; try done.
  - destruct H as [Hs _]. by destruct (signed_not_rejected _ _ Hs).
  - destruct H as (c & Hs & _). by destruct (signed_not_rejected _ _ Hs).
Qed.

Lemma expired_raises token now claims :
  signed_claims token claims →
  (exp claims * microseconds_per_second ≤ now)%Z →
  response (validate_token token now) = Raises (mkHTTPException 401 "EXPIRED_TOKEN").
Proof.
  intros Hs Hle. rewrite validate_token_response.
  pose proof (jwt_decode_cases token now) as H.
  destruct (jwt_decode token SECRET_KEY now) as [c|[]]; try done.
  - destruct H as [Hs' Hlt]. rewrite (signed_claims_unique _ _ _ Hs Hs') in Hle. lia.
  - by destruct (signed_not_rejected _ _ Hs).
  - by destruct (signed_not_rejected _ _ Hs).
Qed.

(** C1. [login] answers [OK_LOGIN|] followed by the token issued at this
    call exactly for the fixed username and password; for every other
    pair its whole output is the literal INVALID_LOGIN, the same whichever
    of the two is wrong. *)
Theorem login_checks_credentials (userName password : string) (now_exp now_iat : Z) :
  let valid := userName = VALID_USERNAME ∧ password = VALID_PASSWORD in
  (valid →
     response (login userName password now_exp now_iat)
     = "OK_LOGIN|" +:+ response (generate_token userName now_exp now_iat))
  ∧ (¬ valid → login userName password now_exp now_iat = ([], "INVALID_LOGIN"))
  ∧ ((∃ token, response (login userName password now_exp now_iat) = "OK_LOGIN|" +:+ token)
     ↔ valid).
Proof.
  simpl. split; [|split; [|split]].
  - intros [-> ->]. apply login_valid.
  - apply login_invalid.
  - intros [token Htok].
    destruct (String.eqb_spec userName VALID_USERNAME) as [Hu|Hu];
      destruct (String.eqb_spec password VALID_PASSWORD) as [Hp|Hp];
      try done; rewrite login_invalid in Htok by (intros []; done); discriminate Htok.
  - intros [-> ->]. eexists. apply login_valid.
Qed.

(** C3. [validate_token] fails with EXPIRED_TOKEN exactly when the
    signature verifies and the clock is at or past the expiry instant,
    fails with INVALID_LOGIN exactly when the token is absent, malformed
    or its signature does not verify, and otherwise returns the claims. *)
Theorem validate_token_outcomes (token : option string) (now : Z) :
  let result := response (validate_token token now) in
  (result = Raises (mkHTTPException 401 "EXPIRED_TOKEN")
     ↔ ∃ claims, signed_claims token claims
                 ∧ (exp claims * microseconds_per_second ≤ now)%Z)
  ∧ (result = Raises (mkHTTPException 401 "INVALID_LOGIN") ↔ rejected token)
  ∧ (∀ claims, result = Returns claims
       ↔ signed_claims token claims ∧ (now < exp claims * microseconds_per_second)%Z).
Proof.
  simpl. rewrite validate_token_response.
  pose proof (jwt_decode_cases token now) as H.
  destruct (jwt_decode token SECRET_KEY now) as [c|[]].
  - destruct H as [Hs Hlt]. split; [|split].
    + split; [done|]. intros (c' & Hs' & Hle).
      rewrite (signed_claims_unique _ _ _ Hs' Hs) in Hle. lia.
    + split; [done|]. intros Hr. by destruct (signed_not_rejected _ _ Hs).
    + intros c'. split.
      * by intros [= <-].
      * intros [Hs' _]. by rewrite (signed_claims_unique _ _ _ Hs' Hs).
  - destruct H as (c & Hs & Hle). split; [|split].
    + split; [|done]. intros _. by exists c.
    + split; [done|]. intros Hr. by destruct (signed_not_rejected _ _ Hs).
    + intros c'. split; [done|]. intros [Hs' Hlt].
      rewrite (signed_claims_unique _ _ _ Hs' Hs) in Hlt. lia.
  - split; [|split].
    + split; [done|]. intros (c & Hs & _). by destruct (signed_not_rejected _ _ Hs).
    + done.
    + intros c. split; [done|]. intros [Hs _]. by destruct (signed_not_rejected _ _ Hs).
  - split; [|split].
    + split; [done|]. intros (c & Hs & _). by destruct (signed_not_rejected _ _ Hs).
    + done.
    + intros c. split; [done|]. intros [Hs _]. by destruct (signed_not_rejected _ _ Hs).
Qed.

(** ** The gate of the analyzer endpoints *)

Lemma falsy_token_raises token now e :
  Py.truthy token = false →
  response (validate_token token now) = Raises e → detail e = "INVALID_LOGIN".
Proof.
  rewrite validate_token_response.
  destruct token as [[|c t]|]; [|done|]; intros _; simpl; by intros [= <-].
Qed.

Lemma gated_closed rest token now :
  let r := gated rest token now in
  (Py.truthy token = false → r = ([], "INVALID_LOGIN"))
  ∧ (∀ e, response (validate_token token now) = Raises e →
          response r = detail e
          ∧ Forall (λ ev, business ev = false) (trace r)).
Proof.
  simpl. unfold gated. split.
  - by intros ->.
  - intros e He. destruct (Py.truthy token) eqn:Ht; simpl.
    + rewrite response_bind, trace_bind, He, validate_token_trace. simpl.
      split; [done|]. by repeat constructor.
    + split; [|by constructor]. symmetry. by eapply falsy_token_raises.
Qed.

Lemma gated_open rest token now claims :
  response (validate_token token now) = Returns claims →
  response (gated rest token now) = response rest.
Proof.
  intros H. unfold gated. rewrite (validated_is_truthy _ _ _ H). simpl.
  by rewrite response_bind, H.
Qed.

Lemma get_pending_tests_gated sample_id token now :
  get_pending_tests sample_id token now
  = gated (tell (SampleLookup sample_id);;
           match MOCK_SAMPLES !! sample_id with
           | None => mret "NOT_FOUND"
           | Some sample =>
               mret (Py.join "|"
                       ([ "QUERY_OK"; Py.str_of_nat (length (tests sample));
                          patient_id sample; patient_name sample;
                          patient_gender sample; patient_dob sample ]
                        ++ tests sample))
           end) token now.
Proof. reflexivity. Qed.

Lemma upload_results_gated path_data token now :
  upload_results path_data token now
  = gated (tell (UploadParse path_data);;
           let parts := Py.split "|" path_data in
           if (length parts <? 2)%nat then mret "NOT_FOUND"
           else
             tell (SampleLookup (default "" (head parts)));;
             match MOCK_SAMPLES !! default "" (head parts) with
             | None => mret "NOT_FOUND"
             | Some sample =>
                 mret (Py.join "|" (map (status_flag (tests sample)) (drop 1 parts)))
             end) token now.
Proof. reflexivity. Qed.

Lemma get_tests_list_gated token now :
  ∃ rest, get_tests_list token now = gated rest token now.
Proof. eexists. unfold get_tests_list, gated. reflexivity. Qed.

Lemma gated_answered_at_gate rest token now :
  token = None ∨ (∃ e, response (validate_token token now) = Raises e) →
  answered_at_gate token now (gated rest token now).
Proof.
  intros Hfail. destruct (gated_closed rest token now) as [Hnone Hraise].
  unfold answered_at_gate. repeat split.
  - intros ->. by apply Hnone.
  - by apply Hraise.
  - by eapply validate_token_detail.
  - intros Hr. by destruct (Hraise _ (rejected_raises token now Hr)) as [-> _].
  - intros c Hs Hle. by destruct (Hraise _ (expired_raises token now c Hs Hle)) as [-> _].
  - destruct Hfail as [->|[e He]].
    + rewrite Hnone by done. constructor.
    + by destruct (Hraise e He) as [_ Htr].
Qed.

(** C4. On each of the three gated endpoints a missing token header is
    answered INVALID_LOGIN, and a token that fails validation is answered
    with the sentinel of its failure: INVALID_LOGIN for a token that is
    malformed or whose signature does not verify, EXPIRED_TOKEN for one
    that verifies and has expired; in each case no sample lookup, upload
    parsing or test-directory access has been made. *)
Theorem gate_answers_before_protocol (sample_id path_data : string)
  (token : option string) (now : Z) :
  token = None ∨ (∃ e, response (validate_token token now) = Raises e) →
  Forall (answered_at_gate token now) (gated_endpoints sample_id path_data token now).
Proof.
  intros Hfail. unfold gated_endpoints.
  rewrite get_pending_tests_gated, upload_results_gated.
  destruct (get_tests_list_gated token now) as [rest Hrest]. rewrite Hrest.
  do 3 (constructor; [by apply gated_answered_at_gate|]). constructor.
Qed.

(** C10. A token header that is present but empty is answered like an
    absent one on each gated endpoint: the output is INVALID_LOGIN with an
    empty trace, so [jwt.decode] (signature and expiry checks) was not
    called. *)
Theorem empty_token_is_absent (sample_id path_data : string) (now : Z) :
  Forall2 (λ r_empty r_absent,
             r_empty = ([], "INVALID_LOGIN") ∧ r_empty = r_absent)
          (gated_endpoints sample_id path_data (Some "") now)
          (gated_endpoints sample_id path_data None now).
Proof. repeat constructor. Qed.

(** ** Token round trip *)

Hypothesis decode_encode : ∀ c, decode_segments (encode_segments c) = Some c.
Hypothesis signature_without_dot : ∀ key m, Py.contains "." (hs256 key m) = false.

Lemma jwt_decode_encode payload now :
  (now < exp payload * microseconds_per_second)%Z →
  jwt_decode (Some (jwt_encode payload SECRET_KEY)) SECRET_KEY now = Returns payload.
Proof.
  intros Hlt. unfold jwt_decode, jwt_encode.
  change ("." +:+ ?s) with (String "." s).
  rewrite rsplit_once_app by apply signature_without_dot.
  rewrite String.eqb_refl, decode_encode. simpl.
  destruct (Z.leb_spec (exp payload * microseconds_per_second) now); [lia | done].
Qed.

(** C2. The token of a successful login, validated before its expiry
    instant, yields the claims of the user that logged in, with an
    expires-at 60 minutes after the instant of issuance (as a
    NumericDate, whole seconds); login with any other pair answers
    INVALID_LOGIN. *)
Theorem token_round_trip (now_exp now_iat now : Z) :
  let token := response (generate_token VALID_USERNAME now_exp now_iat) in
  let expiry := numeric_date (now_exp + timedelta_minutes 60) in
  (now < expiry * microseconds_per_second)%Z →
  response (login VALID_USERNAME VALID_PASSWORD now_exp now_iat) = "OK_LOGIN|" +:+ token
  ∧ response (validate_token (Some token) now)
    = Returns {| sub := VALID_USERNAME; exp := expiry; iat := numeric_date now_iat |}
  ∧ expiry = (numeric_date now_exp + 60 * 60)%Z
  ∧ ∀ userName password,
      ¬ (userName = VALID_USERNAME ∧ password = VALID_PASSWORD) →
      response (login userName password now_exp now_iat) = "INVALID_LOGIN".
Proof.
  simpl. intros Hlt. split; [|split; [|split]].
  - apply login_valid.
  - rewrite validate_token_response.
    change (response (generate_token VALID_USERNAME now_exp now_iat))
      with (jwt_encode
              {| sub := VALID_USERNAME;
                 exp := numeric_date (now_exp + timedelta_minutes TOKEN_EXPIRATION_MINUTES);
                 iat := numeric_date now_iat |} SECRET_KEY).
    by rewrite jwt_decode_encode.
  - unfold numeric_date, timedelta_minutes, microseconds_per_second.
    replace (now_exp + 60 * 60 * 1000000)%Z with (now_exp + (60 * 60) * 1000000)%Z by lia.
    by rewrite Z.div_add.
  - intros u p Hn. by rewrite login_invalid.
Qed.

(** ** The analyzer codec behind the gate *)

(** C6. An authenticated tests_lis_download answers, for a known sample,
    QUERY_OK, the number of tests, the patient's id, name, gender and
    date of birth and then the test codes in their stored order, joined
    by pipes; for an unknown sample it answers NOT_FOUND. *)
Theorem pending_tests_answer (sample_id token : string) (now : Z) (claims : Claims) :
  response (validate_token (Some token) now) = Returns claims →
  response (get_pending_tests sample_id (Some token) now)
  = match MOCK_SAMPLES !! sample_id with
    | Some sample =>
        Py.join "|"
          ([ "QUERY_OK"; Py.str_of_nat (length (tests sample));
             patient_id sample; patient_name sample;
             patient_gender sample; patient_dob sample ]
           ++ tests sample)
    | None => "NOT_FOUND"
    end.
Proof.
  intros Hauth.
  rewrite get_pending_tests_gated, (gated_open _ _ _ _ Hauth), response_bind.
  by destruct (MOCK_SAMPLES !! sample_id).
Qed.

Lemma status_flag_cases sample_tests part :
  (names_ordered_test sample_tests part ∧ status_flag sample_tests part = "UPLOADED")
  ∨ (¬ names_ordered_test sample_tests part ∧ status_flag sample_tests part = "NOT_FOUND").
Proof.
  unfold status_flag, names_ordered_test.
  destruct (Py.contains "=" part) eqn:Heq.
  - destruct (split_once_cut _ _ Heq) as (a & b & Hcut & -> & Ha). rewrite Hcut.
    case_bool_decide as Hin.
    + left. split; [|done]. by exists a, b.
    + right. split; [|done]. intros (c & r & E & Hc & Hin').
      apply cut_unique in E as [-> _]; done.
  - right. split; [|done]. intros (c & r & -> & _).
    change ("=" +:+ r) with (String "=" r) in Heq.
    by rewrite contains_app_sep in Heq.
Qed.

Lemma flags_of_status_flags sample_tests parts :
  flags_of (names_ordered_test sample_tests) parts (map (status_flag sample_tests) parts).
Proof.
  unfold flags_of. induction parts as [|part parts IH]; constructor.
  - apply status_flag_cases.
  - exact IH.
Qed.

(** C5, as the code has it. An authenticated results-upload answers
    NOT_FOUND when the input has fewer than two pipe-separated parts or
    its first part is not a known sample; otherwise it answers one flag
    per further part, in order, joined by pipes, where a part is flagged
    UPLOADED iff it contains an [=] and the text before its first [=] is
    one of the sample's test codes, and NOT_FOUND otherwise. *)
Theorem upload_results_answer (path_data token : string) (now : Z) (claims : Claims) :
  response (validate_token (Some token) now) = Returns claims →
  upload_answer names_ordered_test path_data
                (response (upload_results path_data (Some token) now)).
Proof.
  intros Hauth.
  rewrite upload_results_gated, (gated_open _ _ _ _ Hauth), response_bind.
  unfold upload_answer. cbv zeta.
  destruct (Nat.ltb_spec (length (Py.split "|" path_data)) 2) as [Hlen|Hlen].
  - left. split; [by left | done].
  - rewrite response_bind.
    destruct (MOCK_SAMPLES !! default "" (head (Py.split "|" path_data)))
      as [sample|] eqn:Hsample.
    + right. exists sample, (map (status_flag (tests sample)) (drop 1 (Py.split "|" path_data))).
      split; [done|]. split; [done|]. split; [apply flags_of_status_flags | done].
    + left. split; [by right | done].
Qed.

(** ** Further properties of main.py *)

Lemma contains_app c a b :
  Py.contains c (a +:+ b) = Py.contains c a || Py.contains c b.
Proof.
  induction a as [|d a IH]; simpl; [done|].
  by destruct (Ascii.eqb d c).
Qed.

Lemma split_no_sep sep s : Py.contains sep s = false → Py.split sep s = [s].
Proof.
  induction s as [|c s IH]; simpl; [done|].
  destruct (Ascii.eqb c sep); [done|]. intros H. by rewrite (IH H).
Qed.

Lemma split_app sep a b :
  Py.contains sep a = false →
  Py.split sep (a +:+ String sep b) = a :: Py.split sep b.
Proof.
  induction a as [|c a IH]; simpl.
  - by rewrite Ascii.eqb_refl.
  - destruct (Ascii.eqb c sep); [done|]. intros H. by rewrite (IH H).
Qed.

(** Splitting undoes joining when no item holds the separator. *)
Lemma split_join sep l :
  l ≠ [] → Forall (λ x, Py.contains sep x = false) l →
  Py.split sep (Py.join (String sep EmptyString) l) = l.
Proof.
  intros Hne Hall. induction Hall as [|x l Hx Hall IH]; [done|].
  destruct l as [|y l].
  - simpl. by apply split_no_sep.
  - change (Py.join (String sep EmptyString) (x :: y :: l))
      with (x +:+ String sep (Py.join (String sep EmptyString) (y :: l))).
    rewrite split_app by done. by rewrite IH.
Qed.

Lemma status_flag_entry sample_tests test_code result :
  Py.contains "=" test_code = false →
  status_flag sample_tests (test_code +:+ "=" +:+ result)
  = if bool_decide (test_code ∈ sample_tests) then "UPLOADED" else "NOT_FOUND".
Proof.
  intros Hcode. unfold status_flag.
  change ("=" +:+ result) with (String "=" result).
  by rewrite contains_app_sep, split_once_app.
Qed.

Lemma status_flag_values sample_tests part :
  status_flag sample_tests part = "UPLOADED" ∨ status_flag sample_tests part = "NOT_FOUND".
Proof. destruct (status_flag_cases sample_tests part) as [[_ ->]|[_ ->]]; auto. Qed.

(** X11. An upload in the documented format, a sample id followed by
    [code=result] entries with no pipe in any of them and no [=] in a
    code, is answered flag by flag from the codes alone: UPLOADED where
    the code is one of the sample's tests, NOT_FOUND where it is not,
    whatever the results are. With no entry at all, or an unknown
    sample, the answer is NOT_FOUND. *)
Theorem upload_line_answer (sample_id : string) (results : list (string * string))
  (token : string) (now : Z) (claims : Claims) :
  response (validate_token (Some token) now) = Returns claims →
  Py.contains "|" sample_id = false →
  Forall (λ '(test_code, result),
            Py.contains "|" test_code = false
            ∧ Py.contains "=" test_code = false
            ∧ Py.contains "|" result = false) results →
  response (upload_results (upload_line sample_id results) (Some token) now)
  = match results, MOCK_SAMPLES !! sample_id with
    | [], _ | _, None => "NOT_FOUND"
    | _, Some sample =>
        Py.join "|"
          (map (λ '(test_code, _),
                  if bool_decide (test_code ∈ tests sample)
                  then "UPLOADED" else "NOT_FOUND") results)
    end.
Proof.
  intros Hauth Hid Hresults.
  rewrite upload_results_gated, (gated_open _ _ _ _ Hauth), response_bind.
  assert (Py.split "|" (upload_line sample_id results)
          = sample_id :: map (λ '(test_code, result), test_code +:+ "=" +:+ result) results)
    as Hsplit.
  { unfold upload_line. apply split_join; [done|]. constructor; [done|].
    apply Forall_fmap. eapply Forall_impl; [exact Hresults|].
    intros [code result] (Hc & _ & Hr). simpl.
    change ("=" +:+ result) with (String "=" result).
    by rewrite contains_app, Hc. }
  cbv zeta. rewrite Hsplit. destruct results as [|entry results]; [done|].
  cbn [length Nat.ltb Nat.leb head drop map].
  change (default "" (Some sample_id)) with sample_id.
  rewrite response_bind.
  destruct (MOCK_SAMPLES !! sample_id) as [sample|]; [|done].
  unfold response, mret, traced_ret. cbn [snd]. f_equal.
  change (map (status_flag (tests sample))
              (map (λ '(test_code, result), test_code +:+ "=" +:+ result)
                   (entry :: results))
          = map (λ '(test_code, _),
                   if bool_decide (test_code ∈ tests sample)
                   then "UPLOADED" else "NOT_FOUND") (entry :: results)).
  rewrite List.map_map. apply List.map_ext_Forall.
  eapply Forall_impl; [exact Hresults|].
  intros [code result] (_ & Hc & _). by apply status_flag_entry.
Qed.

(** X12. The answer to an authenticated upload for a known sample
    decodes without ambiguity: splitting it on the pipe gives back the
    flags, one for each part behind the sample id, and each flag is
    UPLOADED or NOT_FOUND. *)
Theorem upload_answer_decodes (path_data token : string) (now : Z) (claims : Claims)
  (sample : Sample) :
  response (validate_token (Some token) now) = Returns claims →
  2 ≤ length (Py.split "|" path_data) →
  MOCK_SAMPLES !! default "" (head (Py.split "|" path_data)) = Some sample →
  ∃ flags,
    response (upload_results path_data (Some token) now) = Py.join "|" flags
    ∧ Py.split "|" (response (upload_results path_data (Some token) now)) = flags
    ∧ length flags = length (Py.split "|" path_data) - 1
    ∧ Forall (λ flag, flag = "UPLOADED" ∨ flag = "NOT_FOUND") flags.
Proof.
  intros Hauth Hlen Hsample.
  rewrite upload_results_gated, (gated_open _ _ _ _ Hauth), response_bind. cbv zeta.
  destruct (Nat.ltb_spec (length (Py.split "|" path_data)) 2) as [|_]; [lia|].
  rewrite response_bind, Hsample.
  set (flags := map (status_flag (tests sample)) (drop 1 (Py.split "|" path_data))).
  assert (Forall (λ flag, flag = "UPLOADED" ∨ flag = "NOT_FOUND") flags) as Hvalues.
  { apply List.Forall_map, Forall_forall. intros part _. apply status_flag_values. }
  assert (length flags = length (Py.split "|" path_data) - 1) as Hflags
    by (unfold flags; by rewrite length_map, length_drop).
  exists flags. split; [done|]. split; [|done].
  change (response (mret (Py.join "|" flags))) with (Py.join "|" flags).
  apply split_join.
  - destruct flags; simpl in *; [lia | done].
  - eapply Forall_impl; [exact Hvalues|]. by intros flag [->| ->].
Qed.

(** X13. An authenticated get_tests_list answers QUERY_OK, the count 7
    and the 7 entries of the test directory, each a code, a tab and a
    name, in the directory's order; splitting the answer on the pipe
    gives back exactly these 9 fields. *)
Theorem tests_list_answer (token : string) (now : Z) (claims : Claims) :
  response (validate_token (Some token) now) = Returns claims →
  let entries :=
    map (λ '(test_code, test_name), test_code +:+ TAB +:+ test_name) MOCK_TESTS in
  response (get_tests_list (Some token) now)
  = Py.join "|" ("QUERY_OK" :: "7" :: entries)
  ∧ length entries = 7
  ∧ Py.split "|" (response (get_tests_list (Some token) now))
    = "QUERY_OK" :: "7" :: entries.
Proof.
  intros Hauth entries.
  assert (response (get_tests_list (Some token) now)
          = Py.join "|" ("QUERY_OK" :: "7" :: entries)) as ->.
  { unfold get_tests_list. rewrite (validated_is_truthy _ _ _ Hauth).
    cbn [negb]. by rewrite response_bind, Hauth. }
  split; [done|]. split; [done|]. vm_compute. reflexivity.
Qed.

Lemma MOCK_SAMPLES_lookup sample_id sample :
  MOCK_SAMPLES !! sample_id = Some sample →
  sample = mkSample "P12345" "John Doe" "M" "1980-01-15" ["CBC"; "GLU"; "CRE"]
  ∨ sample = mkSample "P67890" "Jane Smith" "F" "1990-05-20" ["HBA1C"; "TSH"].
Proof.
  unfold MOCK_SAMPLES. rewrite !lookup_insert, lookup_empty.
  repeat case_decide; intros [= <-]; auto.
Qed.

(** X14. The answer to an authenticated tests_lis_download for a known
    sample decodes without ambiguity: splitting it on the pipe gives
    back QUERY_OK, the count, the four patient fields and the test
    codes, so the count field is the number of test codes that follow
    the six leading fields. *)
Theorem pending_tests_answer_decodes (sample_id token : string) (now : Z)
  (claims : Claims) (sample : Sample) :
  response (validate_token (Some token) now) = Returns claims →
  MOCK_SAMPLES !! sample_id = Some sample →
  Py.split "|" (response (get_pending_tests sample_id (Some token) now))
  = [ "QUERY_OK"; Py.str_of_nat (length (tests sample));
      patient_id sample; patient_name sample;
      patient_gender sample; patient_dob sample ]
    ++ tests sample.
Proof.
  intros Hauth Hsample.
  rewrite get_pending_tests_gated, (gated_open _ _ _ _ Hauth), response_bind, Hsample.
  destruct (MOCK_SAMPLES_lookup _ _ Hsample) as [-> | ->]; vm_compute; reflexivity.
Qed.



(** X16. The token does not carry the sub-second part of the clock: two
    issuances for the same user whose clock readings fall in the same
    seconds yield the same token. *)
Theorem tokens_repeat_within_a_second (username : string)
  (now_exp now_iat now_exp' now_iat' : Z) :
  numeric_date now_exp = numeric_date now_exp' →
  numeric_date now_iat = numeric_date now_iat' →
  generate_token username now_exp now_iat = generate_token username now_exp' now_iat'.
Proof.
  intros Hexp Hiat. unfold generate_token. rewrite Hiat.
  assert (∀ t, numeric_date (t + timedelta_minutes TOKEN_EXPIRATION_MINUTES)
               = (numeric_date t + 3600)%Z) as Hshift.
  { intros t. unfold numeric_date, timedelta_minutes, TOKEN_EXPIRATION_MINUTES,
      microseconds_per_second.
    replace (t + 60 * 60 * 1000000)%Z with (t + 3600 * 1000000)%Z by lia.
    by rewrite Z.div_add. }
  by rewrite !Hshift, Hexp.
Qed.






(** X18. A token signed under another key is answered INVALID_LOGIN at
    every instant, also after its expiry: the signature is checked
    before the expiry. In particular the tokens of an earlier process,
    whose secret was drawn anew, are invalid. *)
Theorem foreign_key_is_rejected (payload : Claims) (key : string) (now : Z) :
  hs256 key (encode_segments payload) ≠ hs256 SECRET_KEY (encode_segments payload) →
  response (validate_token (Some (jwt_encode payload key)) now)
  = Raises (mkHTTPException 401 "INVALID_LOGIN").
Proof.
  intros Hkey. rewrite validate_token_response. unfold jwt_decode, jwt_encode.
  change ("." +:+ ?s) with (String "." s).
  rewrite rsplit_once_app by apply signature_without_dot.
  by destruct (String.eqb_spec (hs256 key (encode_segments payload))
                 (hs256 SECRET_KEY (encode_segments payload))).
Qed.

End Main.

(** ** The demo instance meets the assumptions on the primitives *)

Lemma enc_pos_no_comma p : Py.contains "," (Demo.enc_pos p) = false.
Proof. induction p; simpl; done. Qed.

Lemma enc_Z_no_comma z : Py.contains "," (Demo.enc_Z z) = false.
Proof. destruct z; simpl; [done | apply enc_pos_no_comma ..]. Qed.

Lemma dec_enc_pos p : Demo.dec_pos (Demo.enc_pos p) = Some p.
Proof. induction p as [p IH|p IH|]; simpl; [by rewrite IH .. | done]. Qed.

Lemma dec_enc_Z z : Demo.dec_Z (Demo.enc_Z z) = Some z.
Proof. destruct z; simpl; [done | by rewrite dec_enc_pos ..]. Qed.

Lemma demo_decode_encode c :
  Demo.decode_segments (Demo.encode_segments c) = Some c.
Proof.
  destruct c as [u e i]. unfold Demo.decode_segments, Demo.encode_segments.
  cbn [exp iat sub].
  change (Demo.enc_Z e +:+ "," +:+ Demo.enc_Z i +:+ "," +:+ u)
    with (Demo.enc_Z e +:+ String "," (Demo.enc_Z i +:+ String "," u)).
  rewrite !split_once_app by apply enc_Z_no_comma.
  by rewrite !dec_enc_Z.
Qed.

Lemma undot_without_dot s : Py.contains "." (Demo.undot s) = false.
Proof.
  induction s as [|c s IH]; simpl; [done|].
  destruct (Ascii.eqb c ".") eqn:Hc; simpl; [exact IH | by rewrite Hc].
Qed.

Lemma demo_signature_without_dot key m : Py.contains "." (Demo.hs256 key m) = false.
Proof. apply undot_without_dot. Qed.

(** ** Concrete runs of main.py *)

Abbreviation demo_generate_token :=
  (generate_token Demo.hs256 Demo.encode_segments Demo.SECRET_KEY).
Abbreviation demo_validate_token :=
  (validate_token Demo.hs256 Demo.decode_segments Demo.SECRET_KEY).
Abbreviation demo_get_pending_tests :=
  (get_pending_tests Demo.hs256 Demo.decode_segments Demo.SECRET_KEY).
Abbreviation demo_upload_results :=
  (upload_results Demo.hs256 Demo.decode_segments Demo.SECRET_KEY).
Abbreviation demo_gated_endpoints :=
  (gated_endpoints Demo.hs256 Demo.decode_segments Demo.SECRET_KEY).
Abbreviation demo_token :=
  (response (demo_generate_token VALID_USERNAME Demo.now_exp Demo.now_iat)).
Abbreviation demo_claims :=
  {| sub := "wsadmin"; exp := 1735736400; iat := 1735732800 |}.

Example demo_login :
  login Demo.hs256 Demo.encode_segments Demo.SECRET_KEY "wsadmin" "password" 5 6
  = ([JwtEncode], "OK_LOGIN|p00001000011,z,wsadmin.p00001000011,z,wsadminq7Jx2c_demo-key").
Proof. vm_compute. reflexivity. Qed.

Example demo_validate_at_expiry :
  response (demo_validate_token (Some demo_token) 1735736399999999) = Returns demo_claims
  ∧ response (demo_validate_token (Some demo_token) 1735736400000000)
    = Raises (mkHTTPException 401 "EXPIRED_TOKEN").
Proof. split; vm_compute; reflexivity. Qed.

Example demo_pending_tests :
  demo_get_pending_tests "S001" (Some demo_token) Demo.later
  = ([JwtDecode demo_token; SampleLookup "S001"],
     "QUERY_OK|3|P12345|John Doe|M|1980-01-15|CBC|GLU|CRE").
Proof. vm_compute. reflexivity. Qed.

Example demo_upload :
  response (demo_upload_results "S001|CBC=1=2|GLU=3|XX=1|=|CRE" (Some demo_token) Demo.later)
  = "UPLOADED|UPLOADED|NOT_FOUND|NOT_FOUND|NOT_FOUND".
Proof. vm_compute. reflexivity. Qed.

(** The round trip at the demo login and a request half an hour later. *)
Lemma token_round_trip_witness :
  response (demo_validate_token (Some demo_token) Demo.later) = Returns demo_claims.
Proof.
  refine (proj1 (proj2 (token_round_trip Demo.hs256 Demo.encode_segments
                          Demo.decode_segments Demo.SECRET_KEY
                          demo_decode_encode demo_signature_without_dot
                          Demo.now_exp Demo.now_iat Demo.later _))).
  vm_compute. reflexivity.
Defined.

(** A header that is not a token: the three endpoints answer INVALID_LOGIN
    with nothing touched behind the gate. *)
Lemma gate_answers_before_protocol_witness :
  Forall (λ r, response r = "INVALID_LOGIN"
               ∧ Forall (λ ev, business ev = false) (trace r))
         (demo_gated_endpoints "S001" "S001|CBC=1" (Some "not-a-token") Demo.later).
Proof.
  refine (Forall_impl _ _ _
            (gate_answers_before_protocol Demo.hs256 Demo.decode_segments
               Demo.SECRET_KEY "S001" "S001|CBC=1" (Some "not-a-token") Demo.later _) _).
  - right. exists (mkHTTPException 401 "INVALID_LOGIN"). vm_compute. reflexivity.
  - intros r (_ & Hraise & _ & _ & Htrace). split; [|exact Htrace].
    apply (Hraise (mkHTTPException 401 "INVALID_LOGIN")). vm_compute. reflexivity.
Defined.

Lemma pending_tests_answer_witness :
  response (demo_get_pending_tests "S002" (Some demo_token) Demo.later)
  = "QUERY_OK|2|P67890|Jane Smith|F|1990-05-20|HBA1C|TSH".
Proof.
  refine (eq_trans
            (pending_tests_answer Demo.hs256 Demo.decode_segments Demo.SECRET_KEY
               "S002" demo_token Demo.later demo_claims _) _).
  - vm_compute. reflexivity.
  - vm_compute. reflexivity.
Defined.

Lemma upload_results_answer_witness :
  upload_answer names_ordered_test "S001|CBC=4.5|ALT=30"
    (response (demo_upload_results "S001|CBC=4.5|ALT=30" (Some demo_token) Demo.later)).
Proof.
  apply (upload_results_answer Demo.hs256 Demo.decode_segments Demo.SECRET_KEY
           "S001|CBC=4.5|ALT=30" demo_token Demo.later demo_claims).
  vm_compute. reflexivity.
Defined.

(** C5 as stated fails: the part [CBC=1=2] holds two [=], and the
    authenticated upload flags it UPLOADED. *)
Lemma upload_two_equals_counterexample :
  response (demo_validate_token (Some demo_token) Demo.later) = Returns demo_claims
  ∧ response (demo_upload_results "S001|CBC=1=2" (Some demo_token) Demo.later) = "UPLOADED"
  ∧ ¬ upload_answer names_ordered_test_once "S001|CBC=1=2"
        (response (demo_upload_results "S001|CBC=1=2" (Some demo_token) Demo.later)).
Proof.
  split; [vm_compute; reflexivity|]. split; [vm_compute; reflexivity|].
  replace (response (demo_upload_results "S001|CBC=1=2" (Some demo_token) Demo.later))
    with "UPLOADED" by (vm_compute; reflexivity).
  unfold upload_answer, flags_of.
  change (Py.split "|" "S001|CBC=1=2") with ["S001"; "CBC=1=2"].
  intros [[_ H]|(sample & flags & _ & _ & Hflags & Hjoin)]; [discriminate H|].
  simpl in Hflags.
  apply Forall2_cons_inv_l in Hflags as (flag & rest & Hflag & Hrest & ->).
  apply Forall2_nil_inv_l in Hrest as ->. simpl in Hjoin. subst flag.
  destruct Hflag as [[(code & result & E & Hcode & Hresult & _) _]|[_ H]]; [|discriminate H].
  change ("CBC=1=2") with ("CBC" +:+ String "=" "1=2") in E.
  change ("=" +:+ result) with (String "=" result) in E.
  apply cut_unique in E as [_ <-]; [discriminate Hresult | reflexivity | exact Hcode].
Qed.

(** ** The HL7 server *)

(** C8. The validate endpoint reads the fidelity example as a message of
    type [ADT^A01] with 2 segments, an MSH segment, and the segment names
    MSH and EVN. *)
Theorem validate_fidelity_example (received_messages : list MessageRecord) :
  validate_hl7_message (Some fidelity_example) received_messages
  = (mkResponse [ ("valid", JBool true);
                  ("message_type", JStr "ADT^A01");
                  ("segment_count", JNum 2);
                  ("has_msh", JBool true);
                  ("segments", JList [JStr "MSH"; JStr "EVN"]) ] 200,
     received_messages).
Proof. vm_compute. reflexivity. Qed.

(** C7 as stated fails: the validate endpoint does not answer an empty
    body with HTTP 200. *)
Lemma validate_empty_body_counterexample :
  ¬ (status (validate_hl7_message (Some "") []).1 = 200
     ∧ ("valid", JBool false) ∈ body (validate_hl7_message (Some "") []).1).
Proof. intros [H _]. vm_compute in H. discriminate H. Qed.

(** C7, as the code has it. For an empty body the receive endpoint
    answers HTTP 400 with an [error] field, and the validate endpoint
    answers HTTP 400 with [valid] false and an [error] field; neither
    touches the store. *)
Theorem empty_body_answers (now : string) (received_messages : list MessageRecord) :
  receive_hl7_message (Some "") now received_messages
  = (mkResponse [("error", JStr "No message data provided")] 400, received_messages)
  ∧ validate_hl7_message (Some "") received_messages
    = (mkResponse [ ("valid", JBool false);
                    ("error", JStr "No message data provided") ] 400,
       received_messages).
Proof. split; reflexivity. Qed.

(** C9. The validate endpoint returns the store as it found it; a receive
    that answers success has appended exactly one record (the receipt
    timestamp, the message type, the raw text, the segment count) behind
    the records already stored, and a receive that does not answer
    success has left the store as it was. *)
Theorem store_frame (request_data : option string) (now : string)
  (received_messages : list MessageRecord) :
  (validate_hl7_message request_data received_messages).2 = received_messages
  ∧ (status (receive_hl7_message request_data now received_messages).1 = 200 →
     ∃ message_data message_type segment_count,
       request_data = Some message_data
       ∧ receive_hl7_message request_data now received_messages
         = (mkResponse [ ("status", JStr "success");
                         ("message_type", JStr message_type);
                         ("segment_count", JNum segment_count);
                         ("timestamp", JStr now) ] 200,
            received_messages
            ++ [ {| timestamp := now;
                    message_type := message_type;
                    raw_message := message_data;
                    segment_count := segment_count |} ]))
  ∧ (status (receive_hl7_message request_data now received_messages).1 ≠ 200 →
     (receive_hl7_message request_data now received_messages).2 = received_messages).
Proof.
  split; [|split].
  - unfold validate_hl7_message.
    by destruct (_ ≫= _).
  - unfold receive_hl7_message, decode.
    destruct request_data as [text|]; cbn [mbind outcome_bind]; [|discriminate].
    destruct (String.eqb text ""); cbn [mbind outcome_bind mret outcome_ret fst status];
      [discriminate|].
    destruct (hl7.parse text) as [message|e]; cbn [mbind outcome_bind fst status];
      [|discriminate].
    destruct (msh_9_or message id "Unknown") as [mt|e];
      cbn [mbind outcome_bind mret outcome_ret fst status timestamp]; [|discriminate].
    intros _. by exists text, mt, (hl7.len message).
  - unfold receive_hl7_message, decode.
    destruct request_data as [text|]; cbn [mbind outcome_bind]; [|done].
    destruct (String.eqb text ""); cbn [mbind outcome_bind mret outcome_ret fst snd status];
      [done|].
    destruct (hl7.parse text) as [message|e]; cbn [mbind outcome_bind fst snd status];
      [|done].
    destruct (msh_9_or message id "Unknown") as [mt|e];
      cbn [mbind outcome_bind mret outcome_ret fst snd status timestamp]; done.
Qed.

(** The fidelity example, received into a store of one earlier record. *)
Lemma store_frame_witness :
  ∃ message_type segment_count,
    receive_hl7_message (Some fidelity_example) "2025-01-01T12:00:00+00:00"
      [mkMessageRecord "2025-01-01T11:00:00+00:00" "ORU^R01" "MSH|^~\&|X" 1]
    = (mkResponse [ ("status", JStr "success");
                    ("message_type", JStr message_type);
                    ("segment_count", JNum segment_count);
                    ("timestamp", JStr "2025-01-01T12:00:00+00:00") ] 200,
       [ mkMessageRecord "2025-01-01T11:00:00+00:00" "ORU^R01" "MSH|^~\&|X" 1;
         mkMessageRecord "2025-01-01T12:00:00+00:00" message_type fidelity_example
           segment_count ]).
Proof.
  destruct (proj1 (proj2 (store_frame (Some fidelity_example)
                            "2025-01-01T12:00:00+00:00"
                            [mkMessageRecord "2025-01-01T11:00:00+00:00" "ORU^R01"
                               "MSH|^~\&|X" 1]))
              ltac:(vm_compute; reflexivity))
    as (message_data & message_type & segment_count & Hdata & Hreceive).
  injection Hdata as <-.
  exists message_type, segment_count. exact Hreceive.
Defined.

(** ** The cases of test_server.py *)

Example test_receive_valid_hl7_message now :
  receive_hl7_message (Some sample_hl7_message) now []
  = (mkResponse [ ("status", JStr "success");
                  ("message_type", JStr "ADT^A01");
                  ("segment_count", JNum 4);
                  ("timestamp", JStr now) ] 200,
     [mkMessageRecord now "ADT^A01" sample_hl7_message 4]).
Proof. vm_compute. reflexivity. Qed.

Example test_receive_invalid_hl7_message now received_messages :
  receive_hl7_message (Some "INVALID|MESSAGE") now received_messages
  = (mkResponse [("error", JStr "Failed to parse HL7 message")] 400, received_messages).
Proof. reflexivity. Qed.

Example test_validate_hl7_message received_messages :
  validate_hl7_message (Some sample_hl7_message) received_messages
  = (mkResponse [ ("valid", JBool true);
                  ("message_type", JStr "ADT^A01");
                  ("segment_count", JNum 4);
                  ("has_msh", JBool true);
                  ("segments", JList [JStr "MSH"; JStr "EVN"; JStr "PID"; JStr "PV1"]) ] 200,
     received_messages).
Proof. vm_compute. reflexivity. Qed.

Example test_validate_invalid_message received_messages :
  validate_hl7_message (Some "INVALID") received_messages
  = (mkResponse [ ("valid", JBool false);
                  ("error", JStr "Invalid HL7 message format") ] 200,
     received_messages).
Proof. reflexivity. Qed.

Example test_clear_messages now :
  let stored := (receive_hl7_message (Some sample_hl7_message) now []).2 in
  clear_messages stored
  = (mkResponse [("status", JStr "success"); ("cleared_count", JNum 1)] 200, [])
  ∧ (get_messages (clear_messages stored).2).1
    = mkResponse [("count", JNum 0); ("messages", JList [])] 200.
Proof. split; vm_compute; reflexivity. Qed.

(** * Further properties of server.py *)

(** ** The parsed message *)

Lemma for_each_length {A B} (f : A → outcome Exception B) l ys :
  hl7.for_each f l = Returns ys → length ys = length l.
Proof.
  revert ys. induction l as [|x l IH]; simpl; intros ys.
  - by intros [= <-].
  - destruct (f x) as [y|e]; [|done].
    destruct (hl7.for_each f l) as [ys'|e]; [|done].
    intros [= <-]. simpl. by rewrite (IH ys').
Qed.

Lemma for_each_returns {A B} (f : A → outcome Exception B) l ys :
  hl7.for_each f l = Returns ys → Forall2 (λ x y, f x = Returns y) l ys.
Proof.
  revert ys. induction l as [|x l IH]; simpl; intros ys.
  - intros [= <-]. constructor.
  - destruct (f x) as [y|e] eqn:Hx; [|done].
    destruct (hl7.for_each f l) as [ys'|e]; [|done].
    intros [= <-]. constructor; [done | by apply IH].
Qed.

Lemma for_each_total {A B} (f : A → outcome Exception B) l :
  Forall (λ x, ∃ y, f x = Returns y) l → ∃ ys, hl7.for_each f l = Returns ys.
Proof.
  induction 1 as [|x l [y Hy] _ [ys Hys]]; simpl.
  - by eexists.
  - rewrite Hy, Hys. by eexists.
Qed.

Lemma len_iter n : length (hl7.iter n) = hl7.len n.
Proof.
  destruct n as [text|sep items]; simpl; [|done].
  rewrite length_map. induction text as [|c text IH]; simpl; [done | by rewrite IH].
Qed.

Lemma getitem_returns n i x : hl7.getitem n i = Returns x → i < hl7.len n.
Proof.
  unfold hl7.getitem. destruct (hl7.iter n !! i) eqn:H; [|done].
  intros _. rewrite <- len_iter. by eapply lookup_lt_Some.
Qed.

(** A segment that [segments] returns is one of the message's parts, and
    every part of the message has a first item. *)
Lemma segments_returns message segment_id matches :
  hl7.segments message segment_id = Returns matches →
  matches ≠ []
  ∧ Forall (λ m, m ∈ hl7.iter message) matches
  ∧ Forall (λ seg, ∃ field, hl7.getitem seg 0 = Returns field) (hl7.iter message).
Proof.
  unfold hl7.segments.
  destruct (hl7.for_each _ (hl7.iter message)) as [tested|e] eqn:Htested;
    cbn [mbind outcome_bind]; [|done].
  apply for_each_returns in Htested.
  destruct (filter _ tested) as [|p kept] eqn:Hkept; [done|].
  intros [= <-]. split; [done|]. split.
  - change (p.1 :: map fst kept) with (map fst (p :: kept)).
    rewrite <- Hkept. apply Forall_forall. intros m Hm.
    apply list_elem_of_fmap in Hm as ([seg b] & -> & Hin).
    apply list_elem_of_filter in Hin as [_ Hin]. simpl.
    apply list_elem_of_lookup in Hin as [i Hi].
    destruct (Forall2_lookup_r _ _ _ _ _ Htested Hi) as (x & Hx & Hfx).
    destruct (hl7.getitem x 0) as [field|]; cbn [mbind outcome_bind] in Hfx; [|done].
    destruct (hl7.getitem field 0); cbn [mbind outcome_bind mret outcome_ret] in Hfx; [|done].
    injection Hfx as <- _. by eapply list_elem_of_lookup_2.
  - apply Forall_forall. intros seg Hseg.
    apply list_elem_of_lookup in Hseg as [i Hi].
    destruct (Forall2_lookup_l _ _ _ _ _ Htested Hi) as (y & _ & Hfx).
    destruct (hl7.getitem seg 0) as [field|]; [by eexists | done].
Qed.

Lemma segment_returns message segment_id msh :
  hl7.segment message segment_id = Returns msh →
  hl7.truthy msh = true
  ∧ 1 ≤ hl7.len message
  ∧ Forall (λ seg, ∃ field, hl7.getitem seg 0 = Returns field) (hl7.iter message).
Proof.
  unfold hl7.segment.
  destruct (hl7.segments message segment_id) as [matches|e] eqn:Hm;
    cbn [mbind outcome_bind]; [|done].
  destruct (segments_returns _ _ _ Hm) as (_ & Hin & Hall).
  destruct matches as [|m rest]; [done|]. intros [= ->].
  apply Forall_cons in Hin as [Hin _].
  rewrite Forall_forall in Hall. destruct (Hall _ Hin) as [field Hfield].
  apply getitem_returns in Hfield. split; [|split].
  - unfold hl7.truthy. destruct (hl7.len msh); [lia | done].
  - rewrite <- len_iter. destruct (hl7.iter message); [by apply elem_of_nil in Hin | simpl; lia].
  - by apply Forall_forall.
Qed.

(** The default of the conditional expression is never taken: the
    expression has a value exactly when MSH and its field 9 exist. *)
Lemma msh_9_or_returns {A} message (some : string → A) dflt v :
  msh_9_or message some dflt = Returns v ↔
  ∃ msh field,
    hl7.segment message "MSH" = Returns msh
    ∧ hl7.getitem msh 9 = Returns field
    ∧ v = some (hl7.to_str field).
Proof.
  unfold msh_9_or.
  destruct (hl7.segment message "MSH") as [msh|e] eqn:Hmsh; cbn [mbind outcome_bind].
  - destruct (segment_returns _ _ _ Hmsh) as (-> & _).
    destruct (hl7.getitem msh 9) as [field|e] eqn:Hf;
      cbn [mbind outcome_bind mret outcome_ret].
    + split.
      * intros [= <-]. by exists msh, field.
      * intros (msh' & field' & [= <-] & Hf' & ->).
        rewrite Hf in Hf'. by injection Hf' as ->.
    + split; [done|]. intros (msh' & field' & [= <-] & ? & _). congruence.
  - split; [done|]. by intros (msh' & field' & ? & _).
Qed.

(** ** What the two POST handlers accept *)

Lemma receive_accepts message_data message_type segment_count now received_messages :
  acceptable message_data message_type segment_count →
  receive_hl7_message (Some message_data) now received_messages
  = (mkResponse [ ("status", JStr "success");
                  ("message_type", JStr message_type);
                  ("segment_count", JNum segment_count);
                  ("timestamp", JStr now) ] 200,
     received_messages
     ++ [mkMessageRecord now message_type message_data segment_count]).
Proof.
  intros (Hne & message & msh & field & Hparse & Hmsh & Hfield & -> & ->).
  unfold receive_hl7_message, decode. cbn [mbind outcome_bind].
  destruct (String.eqb_spec message_data "") as [|_]; [done|].
  rewrite Hparse. cbn [mbind outcome_bind].
  assert (msh_9_or message id "Unknown" = Returns (hl7.to_str field)) as ->
    by (apply msh_9_or_returns; by exists msh, field).
  reflexivity.
Qed.

Lemma receive_cases request_data now received_messages :
  (∃ message_data message_type segment_count,
     request_data = Some message_data
     ∧ acceptable message_data message_type segment_count)
  ∨ receive_hl7_message request_data now received_messages
    = (mkResponse
         [("error",
           JStr (if bool_decide (request_data = Some "")
                 then "No message data provided"
                 else "Failed to parse HL7 message"))] 400,
       received_messages).
Proof.
  unfold receive_hl7_message, decode.
  destruct request_data as [text|]; cbn [mbind outcome_bind]; [|by right].
  destruct (String.eqb_spec text "") as [->|Hne]; [by right|].
  rewrite bool_decide_eq_false_2 by congruence.
  destruct (hl7.parse text) as [message|e] eqn:Hparse; cbn [mbind outcome_bind];
    [|by right].
  destruct (msh_9_or message id "Unknown") as [mt|e] eqn:Hmt;
    cbn [mbind outcome_bind]; [|by right].
  left. apply msh_9_or_returns in Hmt as (msh & field & Hmsh & Hfield & ->).
  exists text, (hl7.to_str field), (hl7.len message).
  split; [done|]. split; [done|]. by exists message, msh, field.
Qed.

Lemma validate_accepts message_data message_type segment_count received_messages :
  acceptable message_data message_type segment_count →
  ∃ names,
    length names = segment_count
    ∧ validate_hl7_message (Some message_data) received_messages
      = (mkResponse [ ("valid", JBool true);
                      ("message_type", JStr message_type);
                      ("segment_count", JNum segment_count);
                      ("has_msh", JBool true);
                      ("segments", JList names) ] 200,
         received_messages).
Proof.
  intros (Hne & message & msh & field & Hparse & Hmsh & Hfield & -> & ->).
  destruct (segment_returns _ _ _ Hmsh) as (_ & _ & Hall).
  destruct (for_each_total
              (λ seg, f ← hl7.getitem seg 0; mret (JStr (hl7.to_str f)))
              (hl7.iter message)) as [names Hnames].
  { eapply Forall_impl; [exact Hall|]. intros seg [f ->]. by eexists. }
  exists names. split.
  - rewrite (for_each_length _ _ _ Hnames). apply len_iter.
  - unfold validate_hl7_message, decode. cbn [mbind outcome_bind].
    destruct (String.eqb_spec message_data "") as [|_]; [done|].
    rewrite Hparse. cbn [mbind outcome_bind].
    assert (msh_9_or message JStr JNull = Returns (JStr (hl7.to_str field))) as ->
      by (apply msh_9_or_returns; by exists msh, field).
    cbn [mbind outcome_bind]. rewrite Hmsh. cbn [mbind outcome_bind mret outcome_ret].
    by rewrite Hnames.
Qed.

Lemma validate_cases request_data received_messages :
  (∃ message_data message_type segment_count,
     request_data = Some message_data
     ∧ acceptable message_data message_type segment_count)
  ∨ validate_hl7_message request_data received_messages
    = (if bool_decide (request_data = Some "")
       then mkResponse [ ("valid", JBool false);
                         ("error", JStr "No message data provided") ] 400
       else mkResponse [ ("valid", JBool false);
                         ("error", JStr "Invalid HL7 message format") ] 200,
       received_messages).
Proof.
  unfold validate_hl7_message, decode.
  destruct request_data as [text|]; cbn [mbind outcome_bind]; [|by right].
  destruct (String.eqb_spec text "") as [->|Hne]; [by right|].
  rewrite bool_decide_eq_false_2 by congruence.
  destruct (hl7.parse text) as [message|e] eqn:Hparse; cbn [mbind outcome_bind];
    [|by right].
  destruct (msh_9_or message JStr JNull) as [mt|e] eqn:Hmt;
    cbn [mbind outcome_bind]; [|by right].
  left. apply msh_9_or_returns in Hmt as (msh & field & Hmsh & Hfield & ->).
  exists text, (hl7.to_str field), (hl7.len message).
  split; [done|]. split; [done|]. by exists message, msh, field.
Qed.

Lemma acceptable_unique message_data mt1 n1 mt2 n2 :
  acceptable message_data mt1 n1 → acceptable message_data mt2 n2 → mt1 = mt2 ∧ n1 = n2.
Proof.
  intros (_ & m1 & s1 & f1 & Hp1 & Hs1 & Hf1 & -> & ->)
         (_ & m2 & s2 & f2 & Hp2 & Hs2 & Hf2 & -> & ->).
  rewrite Hp1 in Hp2. injection Hp2 as <-.
  rewrite Hs1 in Hs2. injection Hs2 as <-.
  rewrite Hf1 in Hf2. by injection Hf2 as <-.
Qed.

Lemma acceptable_segments message_data message_type segment_count :
  acceptable message_data message_type segment_count → 1 ≤ segment_count.
Proof.
  intros (_ & message & msh & field & _ & Hmsh & _ & _ & ->).
  by destruct (segment_returns _ _ _ Hmsh) as (_ & ? & _).
Qed.




(** X4. A receive that does not answer success answers 400 with a body
    of exactly one [error] field, whose text is one of two fixed
    messages chosen by whether the body was empty; nothing of the input
    or of the exception is echoed, and the store is as it was. *)
Theorem receive_failure_is_sanitized (request_data : option string) (now : string)
  (received_messages : list MessageRecord) :
  status (receive_hl7_message request_data now received_messages).1 ≠ 200 →
  receive_hl7_message request_data now received_messages
  = (mkResponse
       [("error",
         JStr (if bool_decide (request_data = Some "")
               then "No message data provided"
               else "Failed to parse HL7 message"))] 400,
     received_messages).
Proof.
  intros Hfail.
  destruct (receive_cases request_data now received_messages)
    as [(text & mt & n & -> & Hacc)|H]; [|done].
  by rewrite (receive_accepts _ _ _ _ _ Hacc) in Hfail.
Qed.

(** X5. The validate endpoint answers 400 for the empty body only. Every
    other body is answered 200, also bytes that are not UTF-8 and text
    that does not parse; a body that is not valid gets the fixed report
    [valid] false with one [error] text. *)
Theorem validate_status (request_data : option string)
  (received_messages : list MessageRecord) :
  status (validate_hl7_message request_data received_messages).1
  = (if bool_decide (request_data = Some "") then 400 else 200)
  ∧ (("valid", JBool true) ∈ body (validate_hl7_message request_data received_messages).1
     ∨ (validate_hl7_message request_data received_messages).1
       = mkResponse [ ("valid", JBool false);
                      ("error",
                       JStr (if bool_decide (request_data = Some "")
                             then "No message data provided"
                             else "Invalid HL7 message format")) ]
                    (if bool_decide (request_data = Some "") then 400 else 200)).
Proof.
  destruct (validate_cases request_data received_messages)
    as [(text & mt & n & -> & Hacc)|H].
  - destruct (validate_accepts _ _ _ received_messages Hacc) as (names & _ & ->).
    destruct Hacc as [Hne _]. rewrite bool_decide_eq_false_2 by congruence.
    split; [done|]. left. simpl. apply elem_of_cons. by left.
  - rewrite H. by destruct (bool_decide _); split; try right.
Qed.

(** ** The store over a run of requests *)

Lemma serve_cons request rest received_messages :
  serve (request :: rest) received_messages
  = ((dispatch request received_messages).1
     :: (serve rest (dispatch request received_messages).2).1,
     (serve rest (dispatch request received_messages).2).2).
Proof.
  cbn [serve]. destruct (dispatch request received_messages) as [answer st].
  cbn [fst snd]. by destruct (serve rest st).
Qed.

Lemma serve_app requests1 requests2 received_messages :
  (serve (requests1 ++ requests2) received_messages).2
  = (serve requests2 (serve requests1 received_messages).2).2.
Proof.
  revert received_messages. induction requests1 as [|rq rest IH]; intros st; [done|].
  simpl app. rewrite !serve_cons. simpl. apply IH.
Qed.

Lemma serve_length requests received_messages :
  length (serve requests received_messages).1 = length requests.
Proof.
  revert received_messages. induction requests as [|rq rest IH]; intros st; [done|].
  rewrite serve_cons. simpl. by rewrite IH.
Qed.

(** What one request does to the store. *)
Lemma dispatch_store request received_messages :
  match request with
  | DELETE_messages => (dispatch request received_messages).2 = []
  | POST_message _ _ =>
      (accepted (request, (dispatch request received_messages).1) = true
       ∧ ∃ r, well_stored r
              ∧ (dispatch request received_messages).2 = received_messages ++ [r])
      ∨ (accepted (request, (dispatch request received_messages).1) = false
         ∧ (dispatch request received_messages).2 = received_messages)
  | _ => (dispatch request received_messages).2 = received_messages
  end.
Proof.
  destruct request as [now|request_data now| | |request_data]; simpl; try done.
  - destruct (receive_cases request_data now received_messages)
      as [(text & mt & n & -> & Hacc)|H].
    + left. rewrite (receive_accepts _ _ _ _ _ Hacc). split; [done|].
      eexists. split; [|done]. split; [exact Hacc | by eapply acceptable_segments].
    + right. by rewrite H.
  - unfold validate_hl7_message. by destruct (_ ≫= _).
Qed.


(** X7. The store is append-only between clears: over requests that do
    not clear, the records stored before are a prefix of the store
    after, unchanged and in their order. *)
Theorem store_is_append_only (requests : list Request)
  (received_messages : list MessageRecord) :
  Forall (λ request, is_clear request = false) requests →
  received_messages `prefix_of` (serve requests received_messages).2.
Proof.
  revert received_messages. induction requests as [|rq rest IH]; intros st Hrq; [done|].
  apply Forall_cons in Hrq as [Hrq Hrest].
  rewrite serve_cons. simpl.
  pose proof (dispatch_store rq st) as H.
  etrans; [|by apply IH].
  destruct rq; try (by rewrite H).
  destruct H as [(_ & r & _ & ->)|[_ ->]]; [by apply prefix_app_r | done].
Qed.

(** X8. Over requests that do not clear, the store grows by exactly the
    number of receive requests that were answered with success; what
    [get_messages] then reports as [count] is that length. *)
Theorem store_counts_accepted (requests : list Request)
  (received_messages : list MessageRecord) :
  Forall (λ request, is_clear request = false) requests →
  length (serve requests received_messages).2
  = length received_messages
    + length (filter (λ exchange, Is_true (accepted exchange))
                     (zip requests (serve requests received_messages).1))
  ∧ (get_messages (serve requests received_messages).2).1.(body) !! 0
    = Some ("count", JNum (length (serve requests received_messages).2)).
Proof.
  intros Hrq. split; [|done].
  revert received_messages. induction requests as [|rq rest IH]; intros st.
  { simpl. lia. }
  apply Forall_cons in Hrq as [Hrq Hrest].
  rewrite serve_cons. cbn [fst snd zip zip_with].
  rewrite (IH Hrest), filter_cons.
  pose proof (dispatch_store rq st) as H.
  destruct rq; try (rewrite H; simpl; done).
  destruct H as [(Hacc & r & _ & Hst)|[Hacc Hst]]; rewrite Hst.
  - rewrite decide_True by (by rewrite Hacc). rewrite length_app. simpl. lia.
  - rewrite decide_False by (rewrite Hacc; intros []). done.
Qed.

(** X9. A clear wipes the whole history: the store after a run is the
    store of the requests behind its last clear, served from an empty
    store; and the clear reports as [cleared_count] the number of
    records it found. *)
Theorem clear_forgets_history (before after : list Request)
  (received_messages : list MessageRecord) :
  (serve (before ++ DELETE_messages :: after) received_messages).2
  = (serve after []).2
  ∧ (serve (before ++ [DELETE_messages]) received_messages).1
      !! length before
    = Some (mkResponse
              [ ("status", JStr "success");
                ("cleared_count", JNum (length (serve before received_messages).2)) ]
              200).
Proof.
  split.
  - by rewrite serve_app, serve_cons.
  - revert received_messages. induction before as [|rq rest IH]; intros st; [done|].
    simpl app. rewrite !serve_cons. simpl. apply IH.
Qed.

(** X10. The routes that read do not write: dropping every health,
    list and validate request from a run leaves the final store the
    same. *)
Theorem reads_do_not_write (requests : list Request)
  (received_messages : list MessageRecord) :
  (serve requests received_messages).2
  = (serve (filter (λ request, Is_true (writes request)) requests) received_messages).2.
Proof.
  revert received_messages. induction requests as [|rq rest IH]; intros st; [done|].
  rewrite filter_cons, serve_cons. cbn [snd].
  pose proof (dispatch_store rq st) as H.
  destruct rq; simpl writes;
    try (rewrite decide_False by (intros []); rewrite H; apply IH);
    rewrite decide_True by done; rewrite serve_cons; cbn [snd]; apply IH.
Qed.

(** * The base URL of the API client *)

Lemma rstrip_char_app c s : Py.rstrip_char c (s +:+ String c EmptyString) = Py.rstrip_char c s.
Proof.
  induction s as [|d s IH]; simpl.
  - by rewrite Ascii.eqb_refl.
  - by rewrite IH.
Qed.

Lemma rstrip_char_endswith c s : Py.endswith c (Py.rstrip_char c s) = false.
Proof.
  induction s as [|d s IH]; simpl; [done|].
  destruct (Py.rstrip_char c s) as [|e kept] eqn:Hkept.
  - destruct (Ascii.eqb d c) eqn:Hd; simpl; [done | by rewrite Hd].
  - exact IH.
Qed.

Lemma rstrip_char_fixed c s : Py.endswith c s = false → Py.rstrip_char c s = s.
Proof.
  induction s as [|d s IH]; simpl; [done|].
  destruct s as [|e s].
  - simpl. by intros ->.
  - intros H. by rewrite (IH H).
Qed.

Lemma rstrip_char_prefix c s : ∃ run, s = Py.rstrip_char c s +:+ run ∧ Py.rstrip_char c run = "".
Proof.
  induction s as [|d s (run & Hs & Hrun)]; [by exists ""|]. simpl.
  destruct (Py.rstrip_char c s) as [|e kept] eqn:Hkept.
  - destruct (Ascii.eqb d c) eqn:Hd.
    + exists (String d s). split; [done|]. simpl. by rewrite Hkept, Hd.
    + exists run. split; [|done]. simpl. by rewrite Hs at 1.
  - exists run. split; [|done]. simpl. by rewrite Hs at 1.
Qed.

(** X19. [APIClient] normalises its base URL: the stored URL never ends
    with a slash, it is the given URL without its trailing run of
    slashes, and a base URL given with or without a trailing slash
    leads to the same request URL for every endpoint. *)
Theorem base_url_is_normalised (base_url endpoint : string) :
  Py.endswith "/" (APIClient base_url) = false
  ∧ (∃ slashes, base_url = APIClient base_url +:+ slashes
                ∧ Py.rstrip_char "/" slashes = "")
  ∧ APIClient (APIClient base_url) = APIClient base_url
  ∧ APIClient_url (APIClient (base_url +:+ "/")) endpoint
    = APIClient_url (APIClient base_url) endpoint.
Proof.
  unfold APIClient, APIClient_url. split; [|split; [|split]].
  - apply rstrip_char_endswith.
  - apply rstrip_char_prefix.
  - apply rstrip_char_fixed, rstrip_char_endswith.
  - by rewrite rstrip_char_app.
Qed.

(** * Concrete runs of the further properties *)

Abbreviation demo_get_tests_list :=
  (get_tests_list Demo.hs256 Demo.decode_segments Demo.SECRET_KEY).


Lemma receive_failure_is_sanitized_witness :
  receive_hl7_message (Some "INVALID|MESSAGE") "2025-01-01T12:00:00+00:00" []
  = (mkResponse [("error", JStr "Failed to parse HL7 message")] 400, []).
Proof.
  apply (receive_failure_is_sanitized (Some "INVALID|MESSAGE")
           "2025-01-01T12:00:00+00:00" []).
  intros H. vm_compute in H. discriminate H.
Defined.


Lemma store_is_append_only_witness :
  [mkMessageRecord "2025-01-01T11:00:00+00:00" "ORU^R01" "MSH|^~\&|X" 1]
  `prefix_of`
  (serve [ POST_message (Some fidelity_example) "2025-01-01T12:00:00+00:00";
           GET_messages;
           POST_validate (Some "INVALID");
           POST_message None "2025-01-01T12:00:01+00:00" ]
         [mkMessageRecord "2025-01-01T11:00:00+00:00" "ORU^R01" "MSH|^~\&|X" 1]).2.
Proof. apply store_is_append_only. repeat constructor. Defined.

Lemma store_counts_accepted_witness :
  length (serve [ POST_message (Some fidelity_example) "2025-01-01T12:00:00+00:00";
                  POST_message (Some "") "2025-01-01T12:00:01+00:00";
                  POST_validate (Some sample_hl7_message);
                  POST_message (Some sample_hl7_message) "2025-01-01T12:00:02+00:00" ]
                []).2
  = 2.
Proof.
  refine (eq_trans
            (proj1 (store_counts_accepted
                      [ POST_message (Some fidelity_example) "2025-01-01T12:00:00+00:00";
                        POST_message (Some "") "2025-01-01T12:00:01+00:00";
                        POST_validate (Some sample_hl7_message);
                        POST_message (Some sample_hl7_message) "2025-01-01T12:00:02+00:00" ]
                      [] _)) _).
  - repeat constructor.
  - vm_compute. reflexivity.
Defined.

Lemma upload_line_answer_witness :
  response (demo_upload_results
              (upload_line "S001" [("CBC", "4.5"); ("ALT", "30"); ("GLU", "=x")])
              (Some demo_token) Demo.later)
  = "UPLOADED|NOT_FOUND|UPLOADED".
Proof.
  refine (eq_trans
            (upload_line_answer Demo.hs256 Demo.decode_segments Demo.SECRET_KEY
               "S001" [("CBC", "4.5"); ("ALT", "30"); ("GLU", "=x")]
               demo_token Demo.later demo_claims _ _ _) _).
  - vm_compute. reflexivity.
  - reflexivity.
  - repeat constructor.
  - vm_compute. reflexivity.
Defined.

Lemma upload_answer_decodes_witness :
  ∃ flags,
    response (demo_upload_results "S001|CBC=1=2|zzz" (Some demo_token) Demo.later)
    = Py.join "|" flags
    ∧ Py.split "|"
        (response (demo_upload_results "S001|CBC=1=2|zzz" (Some demo_token) Demo.later))
      = flags
    ∧ length flags = length (Py.split "|" "S001|CBC=1=2|zzz") - 1
    ∧ Forall (λ flag, flag = "UPLOADED" ∨ flag = "NOT_FOUND") flags.
Proof.
  apply (upload_answer_decodes Demo.hs256 Demo.decode_segments Demo.SECRET_KEY
           "S001|CBC=1=2|zzz" demo_token Demo.later demo_claims
           (mkSample "P12345" "John Doe" "M" "1980-01-15" ["CBC"; "GLU"; "CRE"])).
  - vm_compute. reflexivity.
  - vm_compute. lia.
  - vm_compute. reflexivity.
Defined.

Lemma tests_list_answer_witness :
  length (Py.split "|" (response (demo_get_tests_list (Some demo_token) Demo.later))) = 9.
Proof.
  rewrite (proj2 (proj2 (tests_list_answer Demo.hs256 Demo.decode_segments
                           Demo.SECRET_KEY demo_token Demo.later demo_claims
                           ltac:(vm_compute; reflexivity)))).
  reflexivity.
Defined.

Lemma pending_tests_answer_decodes_witness :
  Py.split "|" (response (demo_get_pending_tests "S002" (Some demo_token) Demo.later))
  = ["QUERY_OK"; "2"; "P67890"; "Jane Smith"; "F"; "1990-05-20"; "HBA1C"; "TSH"].
Proof.
  refine (eq_trans
            (pending_tests_answer_decodes Demo.hs256 Demo.decode_segments
               Demo.SECRET_KEY "S002" demo_token Demo.later demo_claims
               (mkSample "P67890" "Jane Smith" "F" "1990-05-20" ["HBA1C"; "TSH"]) _ _) _).
  - vm_compute. reflexivity.
  - vm_compute. reflexivity.
  - vm_compute. reflexivity.
Defined.


Lemma tokens_repeat_within_a_second_witness :
  demo_generate_token "wsadmin" Demo.now_exp Demo.now_iat
  = demo_generate_token "wsadmin" (Demo.now_exp + 700000) (Demo.now_iat - 250000).
Proof.
  apply tokens_repeat_within_a_second; vm_compute; reflexivity.
Defined.


Lemma foreign_key_is_rejected_witness :
  response (demo_validate_token
              (Some (jwt_encode Demo.hs256 Demo.encode_segments demo_claims "an-older-secret"))
              1735739999000000)
  = Raises (mkHTTPException 401 "INVALID_LOGIN").
Proof.
  apply (foreign_key_is_rejected Demo.hs256 Demo.encode_segments Demo.decode_segments
           Demo.SECRET_KEY demo_signature_without_dot demo_claims "an-older-secret").
  intros H. vm_compute in H. discriminate H.
Defined.

(** * The sample message of the test client, as the server reads it *)

Lemma append_assoc (a b c : string) : (a +:+ b) +:+ c = a +:+ (b +:+ c).
Proof.
  induction a as [|x a IH]; [done|].
  change (String x ((a +:+ b) +:+ c) = String x (a +:+ (b +:+ c))). by rewrite IH.
Qed.

Lemma rstrip_app a b : Py.rstrip b ≠ "" → Py.rstrip (a +:+ b) = a +:+ Py.rstrip b.
Proof.
  intros Hb. induction a as [|x a IH]; [done|].
  change (Py.rstrip (String x (a +:+ b)) = String x (a +:+ Py.rstrip b)).
  cbn [Py.rstrip]. rewrite IH. destruct (a +:+ Py.rstrip b) eqn:E; [|done].
  destruct a; [done | discriminate E].
Qed.

Lemma timestamp_without sep now :
  Py.isdigit sep = false → is_timestamp now → Py.contains sep now = false.
Proof.
  intros Hsep. unfold is_timestamp.
  induction now as [|c now IH]; simpl; [done|].
  intros [Hc Hnow]%Forall_cons.
  destruct (Ascii.eqb_spec c sep) as [->|_]; [congruence | by apply IH].
Qed.

Lemma plan_of_header rest :
  hl7.create_parse_plan ("MSH|^~\&|" +:+ rest) = Returns standard_separators.
Proof. vm_compute. reflexivity. Qed.

Lemma split_header_of rest :
  hl7.split_header standard_separators ("MSH|^~\&|" +:+ rest)
  = Returns ([ hl7.Container "~" [hl7.Leaf "MSH"];
               hl7.Container "~" [hl7.Leaf "|"];
               hl7.Container "~" [hl7.Leaf "^~\&"] ], rest).
Proof. vm_compute. reflexivity. Qed.

Lemma _split_level separators deeper separator text :
  hl7._split separators (S deeper) separator text
  = let container := hl7.Container (hl7.own_separator separators (S deeper)) in
    if negb (hl7.applies separators separator text)
    then Returns (container [hl7.Leaf text])
    else
      match (if (S deeper =? 4)%nat && hl7.is_header text
             then hl7.split_header separators text
             else Returns ([], text)) with
      | Raises e => Raises e
      | Returns (data, EmptyString) => Returns (container data)
      | Returns (data, text) =>
          match hl7.next separators separator (S deeper) with
          | Raises e => Raises e
          | Returns separator' =>
              match hl7.for_each (hl7._split separators deeper separator')
                                 (Py.split separator text) with
              | Raises e => Raises e
              | Returns parts => Returns (container (data ++ parts))
              end
          end
      end.
Proof. reflexivity. Qed.

(** One level of [_split] on a text that holds a delimiter and is not
    used up by its header. *)
Lemma _split_step separators deeper separator text data rest separator' parts :
  hl7.applies separators separator text = true →
  (if (S deeper =? 4)%nat && hl7.is_header text
   then hl7.split_header separators text
   else Returns ([], text)) = Returns (data, rest) →
  rest ≠ "" →
  hl7.next separators separator (S deeper) = Returns separator' →
  hl7.for_each (hl7._split separators deeper separator') (Py.split separator rest)
  = Returns parts →
  hl7._split separators (S deeper) separator text
  = Returns (hl7.Container (hl7.own_separator separators (S deeper)) (data ++ parts)).
Proof.
  intros Happ Hhead Hrest Hnext Hparts.
  rewrite _split_level. cbv zeta. rewrite Happ, Hhead. cbn [negb].
  destruct rest; [done|]. by rewrite Hnext, Hparts.
Qed.

Lemma for_each_cons {A B} (f : A → outcome Exception B) x l y ys :
  f x = Returns y → hl7.for_each f l = Returns ys →
  hl7.for_each f (x :: l) = Returns (y :: ys).
Proof. intros Hx Hl. simpl. by rewrite Hx, Hl. Qed.

Lemma applies_here separator text :
  Py.contains separator text = true →
  separator = hl7.CR ∨ separator = "|"%char →
  hl7.applies standard_separators separator text = true.
Proof.
  intros H [-> | ->]; unfold hl7.applies.
  - change (list_ascii_of_string (hl7.separators_from standard_separators hl7.CR))
      with [hl7.CR; "|"; "~"; "^"; "&"]%char.
    cbn [existsb]. by rewrite H.
  - change (list_ascii_of_string (hl7.separators_from standard_separators "|"))
      with ["|"; "~"; "^"; "&"]%char.
    cbn [existsb]. by rewrite H.
Qed.

Lemma split_plain_field now :
  is_timestamp now →
  hl7._split standard_separators 3 "~" now = Returns (hl7.Container "~" [hl7.Leaf now]).
Proof.
  intros Hnow. rewrite _split_level. cbv zeta.
  assert (hl7.applies standard_separators "~" now = false) as ->; [|done].
  unfold hl7.applies.
  change (list_ascii_of_string (hl7.separators_from standard_separators "~"))
    with ["~"; "^"; "&"]%char.
  cbn [existsb]. by rewrite !timestamp_without.
Qed.

Lemma strip_sample now :
  Py.strip (create_sample_hl7_message now)
  = "MSH|^~\&|"
    +:+ ((sample_fields +:+ now +:+ sample_msh_tail) +:+ String hl7.CR sample_segments).
Proof.
  unfold Py.strip.
  change (Py.lstrip (create_sample_hl7_message now))
    with (("MSH|^~\&|" +:+ sample_fields)
          +:+ (now +:+ (sample_msh_tail
                        +:+ String hl7.CR (sample_segments +:+ String hl7.CR EmptyString)))).
  rewrite <- (append_assoc _ now), <- (append_assoc _ sample_msh_tail).
  rewrite rstrip_app by (vm_compute; discriminate).
  change (Py.rstrip (String hl7.CR (sample_segments +:+ String hl7.CR EmptyString)))
    with (String hl7.CR sample_segments).
  by rewrite !append_assoc.
Qed.

Lemma parse_sample now :
  is_timestamp now →
  hl7.parse (create_sample_hl7_message now)
  = Returns (hl7.Container hl7.CR (sample_msh now :: sample_parsed_segments)).
Proof.
  intros Hnow. unfold hl7.parse. rewrite strip_sample, plan_of_header.
  cbn [mbind outcome_bind].
  rewrite <- (append_assoc "MSH|^~\&|").
  set (segment1 := "MSH|^~\&|" +:+ (sample_fields +:+ now +:+ sample_msh_tail)).
  assert (Py.contains hl7.CR segment1 = false) as Hs1.
  { unfold segment1. by rewrite !contains_app, (timestamp_without hl7.CR now). }
  assert (hl7._split standard_separators 4 "|" segment1 = Returns (sample_msh now))
    as Hsegment1.
  { eapply (_split_step standard_separators 3 "|" segment1 _
              (sample_fields +:+ now +:+ sample_msh_tail) "~").
    - apply applies_here; [|by right]. unfold segment1. by rewrite contains_app.
    - unfold segment1.
      replace (hl7.is_header
                 ("MSH|^~\&|" +:+ (sample_fields +:+ now +:+ sample_msh_tail)))
        with true by (vm_compute; reflexivity).
      apply split_header_of.
    - done.
    - vm_compute. reflexivity.
    - change (sample_fields +:+ now +:+ sample_msh_tail)
        with ("SENDING_APP" +:+ String "|"
                ("SENDING_FAC" +:+ String "|"
                   ("RECEIVING_APP" +:+ String "|"
                      ("RECEIVING_FAC" +:+ String "|"
                         (now +:+ String "|" "|ADT^A01|MSG00001|P|2.5"))))).
      rewrite !split_app by (reflexivity || by apply timestamp_without).
      do 4 (eapply for_each_cons; [vm_compute; reflexivity|]).
      eapply for_each_cons; [by apply split_plain_field|].
      vm_compute. reflexivity. }
  change (hl7.Container hl7.CR (sample_msh now :: sample_parsed_segments))
    with (hl7.Container (hl7.own_separator standard_separators 5)
            ([] ++ sample_msh now :: sample_parsed_segments)).
  eapply (_split_step standard_separators 4 hl7.CR _ [] _ "|").
  - apply applies_here; [|by left]. by rewrite contains_app_sep.
  - reflexivity.
  - unfold segment1. done.
  - vm_compute. reflexivity.
  - rewrite split_app by done.
    eapply for_each_cons; [exact Hsegment1|]. vm_compute. reflexivity.
Qed.

(** X20. The server accepts the sample message of the test client
    whatever the time it is built at: for every timestamp of digits the
    validate endpoint reports it valid with type [ADT^A01] and the four
    segments MSH, EVN, PID and PV1, and the receive endpoint stores it
    with that type and segment count. The EVN line, which the client
    sends with its placeholder unformatted, does not stand in the way. *)
Theorem sample_message_is_accepted (now receipt : string)
  (received_messages : list MessageRecord) :
  is_timestamp now →
  validate_hl7_message (Some (create_sample_hl7_message now)) received_messages
  = (mkResponse [ ("valid", JBool true);
                  ("message_type", JStr "ADT^A01");
                  ("segment_count", JNum 4);
                  ("has_msh", JBool true);
                  ("segments", JList [JStr "MSH"; JStr "EVN"; JStr "PID"; JStr "PV1"]) ]
                200,
     received_messages)
  ∧ receive_hl7_message (Some (create_sample_hl7_message now)) receipt received_messages
    = (mkResponse [ ("status", JStr "success");
                    ("message_type", JStr "ADT^A01");
                    ("segment_count", JNum 4);
                    ("timestamp", JStr receipt) ] 200,
       received_messages
       ++ [mkMessageRecord receipt "ADT^A01" (create_sample_hl7_message now) 4]).
Proof.
  intros Hnow. pose proof (parse_sample now Hnow) as Hparse. split.
  - unfold validate_hl7_message, decode. cbn [mbind outcome_bind].
    replace (String.eqb (create_sample_hl7_message now) "") with false by reflexivity.
    rewrite Hparse. vm_compute. reflexivity.
  - apply receive_accepts. split; [done|].
    eexists _, _, _. split; [exact Hparse|].
    repeat split; vm_compute; reflexivity.
Qed.

Lemma sample_message_is_accepted_witness :
  (validate_hl7_message (Some (create_sample_hl7_message "20250101120000")) []).1
  = mkResponse [ ("valid", JBool true);
                 ("message_type", JStr "ADT^A01");
                 ("segment_count", JNum 4);
                 ("has_msh", JBool true);
                 ("segments", JList [JStr "MSH"; JStr "EVN"; JStr "PID"; JStr "PV1"]) ]
               200.
Proof.
  refine (f_equal fst
            (proj1 (sample_message_is_accepted "20250101120000"
                      "2025-01-01T12:00:00+00:00" [] _))).
  repeat constructor.
Defined.
